(** * Location CRUD handlers of [evecs-db/shared_code/location_crud.py]

    A shallow embedding of the four handlers [create_location],
    [delete_location], [get_location] and [edit_location], together with the
    Python operations they apply to decoded JSON values, and an in-memory
    model of the document container they talk to. *)

From Stdlib Require Import String Ascii List ZArith Bool Lia PeanoNat DecimalString.
Import ListNotations.
Open Scope string_scope.
Set Warnings "-register-all".

(* ================================================================== *)
(** ** Decoded JSON values *)
(* ================================================================== *)

(** What [req.get_json()] returns and what the container stores: Python
    [None], [bool], [int], [str], [list] and [dict].  A [dict] keeps its keys
    in insertion order, so it is an association list.  Non-integer numbers are
    not represented; no handler inspects a number beyond its truth value. *)
Inductive json : Type :=
| JNull
| JBool (b : bool)
| JNum (n : Z)
| JStr (s : string)
| JArr (xs : list json)
| JObj (kvs : list (string * json)).

Definition dict : Type := list (string * json).

Module Json.

(** Structural equality, as used by the container's [c.field = @value]
    filter. *)
Fixpoint eqb (a b : json) {struct a} : bool :=
  match a, b with
  | JNull, JNull => true
  | JBool x, JBool y => Bool.eqb x y
  | JNum x, JNum y => Z.eqb x y
  | JStr x, JStr y => String.eqb x y
  | JArr xs, JArr ys =>
      (fix go (l1 l2 : list json) {struct l1} : bool :=
         match l1, l2 with
         | [], [] => true
         | x :: l1', y :: l2' => eqb x y && go l1' l2'
         | _, _ => false
         end) xs ys
  | JObj xs, JObj ys =>
      (fix go (l1 l2 : list (string * json)) {struct l1} : bool :=
         match l1, l2 with
         | [], [] => true
         | (k, x) :: l1', (k', y) :: l2' =>
             String.eqb k k' && eqb x y && go l1' l2'
         | _, _ => false
         end) xs ys
  | _, _ => false
  end.

(** Python truth value of a decoded JSON value ([if v:], [not v]). *)
Definition truthy (v : json) : bool :=
  match v with
  | JNull => false
  | JBool b => b
  | JNum n => negb (Z.eqb n 0)
  | JStr s => negb (String.eqb s EmptyString)
  | JArr xs => match xs with [] => false | _ :: _ => true end
  | JObj kvs => match kvs with [] => false | _ :: _ => true end
  end.

(** The values on which Python's [in] operator is defined. *)
Definition is_container (v : json) : bool :=
  match v with
  | JArr _ | JObj _ | JStr _ => true
  | _ => false
  end.

Definition is_object (v : json) : bool :=
  match v with
  | JObj _ => true
  | _ => false
  end.

End Json.

(* ================================================================== *)
(** ** Python dictionaries *)
(* ================================================================== *)

Module Dict.

(** [d.get(k)] / [d[k]]: the value bound to [k], if any. *)
Fixpoint get (k : string) (d : dict) : option json :=
  match d with
  | [] => None
  | (k', v) :: d' => if String.eqb k k' then Some v else get k d'
  end.

(** [k in d]. *)
Definition mem (k : string) (d : dict) : bool :=
  match get k d with
  | Some _ => true
  | None => false
  end.

(** [d[k] = v]: an existing key keeps its position, a new key goes last. *)
Fixpoint set (k : string) (v : json) (d : dict) : dict :=
  match d with
  | [] => [(k, v)]
  | (k', v') :: d' =>
      if String.eqb k k' then (k', v) :: d' else (k', v') :: set k v d'
  end.

Definition keys (d : dict) : list string := map fst d.

End Dict.

(* ================================================================== *)
(** ** Python operations on decoded JSON, with their exceptions *)
(* ================================================================== *)

Inductive exn : Type :=
| TypeError
| KeyError
| AttributeError
| ValueError
| SchemaError
| CosmosHttpResponseError.

Inductive result (A : Type) : Type :=
| Ok (a : A)
| Raise (e : exn).
Arguments Ok {A} a.
Arguments Raise {A} e.

Definition rbind {A B : Type} (r : result A) (k : A -> result B) : result B :=
  match r with
  | Ok a => k a
  | Raise e => Raise e
  end.

Notation "x <~ r ;; k" := (rbind r (fun x => k))
  (at level 61, r at next level, right associativity).

Module Py.

(** [p in s] on two strings: [p] occurs in [s]. *)
Fixpoint is_substring (p s : string) : bool :=
  String.prefix p s
  || match s with
     | EmptyString => false
     | String _ s' => is_substring p s'
     end.

(** The items a [for] loop over a string visits: its one-character
    strings. *)
Fixpoint chars (s : string) : list json :=
  match s with
  | EmptyString => []
  | String c s' => JStr (String c EmptyString) :: chars s'
  end.

(** [k in c] for a string [k]: key membership on a dict, element membership
    on a list, substring test on a string, [TypeError] otherwise. *)
Definition contains (k : string) (c : json) : result bool :=
  match c with
  | JObj d => Ok (Dict.mem k d)
  | JArr xs => Ok (existsb (Json.eqb (JStr k)) xs)
  | JStr s => Ok (is_substring k s)
  | _ => Raise TypeError
  end.

(** [c[k]] for a string [k]: dict lookup ([KeyError] when absent);
    [TypeError] on every other value (a list or a string wants an integer
    index, the rest is not subscriptable). *)
Definition getitem (c : json) (k : string) : result json :=
  match c with
  | JObj d => match Dict.get k d with
              | Some v => Ok v
              | None => Raise KeyError
              end
  | _ => Raise TypeError
  end.

(** [c[k] = v] for a string [k]: only a dict supports it. *)
Definition setitem (c : json) (k : string) (v : json) : result json :=
  match c with
  | JObj d => Ok (JObj (Dict.set k v d))
  | _ => Raise TypeError
  end.

(** [c.get(k)]: only a dict has the method; a missing key gives [None]. *)
Definition get (c : json) (k : string) : result json :=
  match c with
  | JObj d => match Dict.get k d with
              | Some v => Ok v
              | None => Ok JNull
              end
  | _ => Raise AttributeError
  end.

(** The items visited by [for x in c]: the elements of a list, the keys of
    a dict, the characters of a string; [TypeError] otherwise. *)
Definition iter (c : json) : result (list json) :=
  match c with
  | JArr xs => Ok xs
  | JObj d => Ok (map JStr (Dict.keys d))
  | JStr s => Ok (chars s)
  | _ => Raise TypeError
  end.

(** [repr] of a list of plain identifiers, as an f-string prints
    [missing]: ['a', 'b']. *)
Definition repr_names (names : list string) : string :=
  "[" ++ String.concat ", " (map (fun n => "'" ++ n ++ "'") names) ++ "]".

End Py.

(* ================================================================== *)
(** ** Requests, responses and the world the handlers run in *)
(* ================================================================== *)

(** The request object: the handlers read [req.method], [req.params] and
    call [req.get_json()], which returns the decoded body or raises (here
    [None]) when the body is not JSON. *)
Record HttpRequest : Type := mkRequest {
  method : string;
  params : list (string * string);
  json_body : option json
}.

(** Every handler returns [{"status_code": ..., "body": ...}]. *)
Record response : Type := mkResponse {
  status_code : Z;
  body : json
}.

(** The mutating calls a handler can issue on the container proxy. *)
Inductive store_call : Type :=
| CreateItem (doc : dict)
| ReplaceItem (item : dict) (new_body : dict)
| DeleteItem (item : json) (partition_key : json).

(** The state around a handler: the documents held by the container, the
    mutating calls issued on the proxy so far (oldest first), and how many
    identifiers [uuid.uuid4()] has handed out. *)
Record world : Type := mkWorld {
  docs : list dict;
  calls : list store_call;
  uuid_count : nat
}.

Definition M (A : Type) : Type := world -> result A * world.

Definition ret {A : Type} (a : A) : M A := fun w => (Ok a, w).

Definition raise {A : Type} (e : exn) : M A := fun w => (Raise e, w).

Definition bind {A B : Type} (m : M A) (k : A -> M B) : M B :=
  fun w =>
    match m w with
    | (Ok a, w') => k a w'
    | (Raise e, w') => (Raise e, w')
    end.

Definition lift {A : Type} (r : result A) : M A := fun w => (r, w).

Notation "x <- m ;; k" := (bind m (fun x => k))
  (at level 61, m at next level, right associativity).

(** [try: ... except Exception: return fallback]. *)
Definition try_except (m : M response) (fallback : response)
  : world -> response * world :=
  fun w =>
    match m w with
    | (Ok r, w') => (r, w')
    | (Raise _, w') => (fallback, w')
    end.

(** [req.get_json()]. *)
Definition get_json (req : HttpRequest) : M json :=
  match json_body req with
  | Some b => ret b
  | None => raise ValueError
  end.

(** [req.params.get(k)]: the parameter as a string, or [None]. *)
Fixpoint params_get (k : string) (ps : list (string * string)) : json :=
  match ps with
  | [] => JNull
  | (k', v) :: ps' => if String.eqb k k' then JStr v else params_get k ps'
  end.

(* ================================================================== *)
(** ** The container proxy *)
(* ================================================================== *)

(** In-memory model of the [LocationsContainerProxy] collaborator.  A stored
    document is identified by its internal ["id"] within its partition, and
    the partition key is the document's ["location_id"].  A call that fails
    raises and leaves the documents as they were. *)
Module Store.

Definition opt_eqb (a b : option json) : bool :=
  match a, b with
  | Some x, Some y => Json.eqb x y
  | None, None => true
  | _, _ => false
  end.

(** The document has internal id [i] and partition key [pk]. *)
Definition is_item (i : option json) (pk : option json) (d : dict) : bool :=
  opt_eqb (Dict.get "id" d) i && opt_eqb (Dict.get "location_id" d) pk.

(** [SELECT * FROM c WHERE c.<field> = @value]. *)
Definition field_is (field : string) (value : json) (d : dict) : bool :=
  match Dict.get field d with
  | Some v => Json.eqb v value
  | None => false
  end.

Definition select (field : string) (value : json) (ds : list dict)
  : list dict :=
  filter (field_is field value) ds.

Fixpoint remove_first (p : dict -> bool) (ds : list dict) : list dict :=
  match ds with
  | [] => []
  | d :: ds' => if p d then ds' else d :: remove_first p ds'
  end.

Fixpoint replace_first (p : dict -> bool) (new : dict) (ds : list dict)
  : list dict :=
  match ds with
  | [] => []
  | d :: ds' => if p d then new :: ds' else d :: replace_first p new ds'
  end.

Definition log (c : store_call) (w : world) : world :=
  mkWorld (docs w) (calls w ++ [c]) (uuid_count w).

Definition with_docs (ds : list dict) (w : world) : world :=
  mkWorld ds (calls w) (uuid_count w).

(** [query_items(query="SELECT * FROM c WHERE c.<field> = @value", ...)]. *)
Definition query_items_where (field : string) (value : json)
  : M (list dict) :=
  fun w => (Ok (select field value (docs w)), w).

(** [query_items(query="SELECT * FROM c", ...)]. *)
Definition query_items_all : M (list dict) :=
  fun w => (Ok (docs w), w).

(** [create_item(doc)]: refused when the document has no ["id"] or when its
    partition already holds a document with that id. *)
Definition create_item (doc : dict) : M unit :=
  fun w =>
    let w1 := log (CreateItem doc) w in
    match Dict.get "id" doc with
    | None => (Raise CosmosHttpResponseError, w1)
    | Some i =>
        if existsb (is_item (Some i) (Dict.get "location_id" doc)) (docs w)
        then (Raise CosmosHttpResponseError, w1)
        else (Ok tt, with_docs (docs w ++ [doc]) w1)
    end.

(** [delete_item(item=i, partition_key=pk)]: removes the document with that
    id in that partition, refused when there is none. *)
Definition delete_item (i pk : json) : M unit :=
  fun w =>
    let w1 := log (DeleteItem i pk) w in
    if existsb (is_item (Some i) (Some pk)) (docs w)
    then (Ok tt, with_docs (remove_first (is_item (Some i) (Some pk)) (docs w)) w1)
    else (Raise CosmosHttpResponseError, w1).

(** [replace_item(item=item, body=new)]: the document designated by [item]
    (its id, in the partition of [new]) is replaced by [new]; refused when
    [item] has no id or designates no stored document. *)
Definition replace_item (item new : dict) : M unit :=
  fun w =>
    let w1 := log (ReplaceItem item new) w in
    match Dict.get "id" item with
    | None => (Raise CosmosHttpResponseError, w1)
    | Some i =>
        let p := is_item (Some i) (Dict.get "location_id" new) in
        if existsb p (docs w)
        then (Ok tt, with_docs (replace_first p new (docs w)) w1)
        else (Raise CosmosHttpResponseError, w1)
    end.

End Store.

(* ================================================================== *)
(** ** The handlers *)
(* ================================================================== *)

(** Outcome of [jsonschema.validate(instance, schema)]: it returns, raises
    [ValidationError] with a message, or raises [SchemaError] when the schema
    itself is malformed. *)
Inductive validation : Type :=
| Valid
| ValidationError (msg : string)
| InvalidSchema.

Definition error_body (msg : string) : json := JObj [("error", JStr msg)].

Definition is_nil {A : Type} (l : list A) : bool :=
  match l with
  | [] => true
  | _ :: _ => false
  end.

Definition required_fields : list string := ["location_name"; "rooms"].

Definition updatable_keys : list string :=
  ["location_id"; "location_name"; "events_ids"; "rooms"].

(** [[f for f in fields if f not in body]]. *)
Fixpoint missing_fields (fields : list string) (body : json)
  : result (list string) :=
  match fields with
  | [] => Ok []
  | f :: fields' =>
      present <~ Py.contains f body ;;
      rest <~ missing_fields fields' body ;;
      Ok (if present then rest else f :: rest)
  end.

(** The loop over [body["rooms"]] of the mandatory room fields: [true] when
    it returns the 400 response, [false] when it runs to its end. *)
Fixpoint room_lacks_field (rooms : list json) : result bool :=
  match rooms with
  | [] => Ok false
  | room :: rooms' =>
      has_name <~ Py.contains "room_name" room ;;
      if negb has_name then Ok true
      else
        has_capacity <~ Py.contains "capacity" room ;;
        if negb has_capacity then Ok true else room_lacks_field rooms'
  end.

(** The loop of step 4.3: body keys that the new document lacks and that
    the schema declares under ["properties"] are copied over. *)
Fixpoint add_schema_fields (items : list (string * json))
  (location_schema : json) (new_doc : dict) : result dict :=
  match items with
  | [] => Ok new_doc
  | (key, val) :: items' =>
      if Dict.mem key new_doc
      then add_schema_fields items' location_schema new_doc
      else
        properties <~ Py.getitem location_schema "properties" ;;
        declared <~ Py.contains key properties ;;
        add_schema_fields items' location_schema
          (if declared then Dict.set key val new_doc else new_doc)
  end.

(** The loop of [edit_location] over [updatable_keys]:
    [if key in body: location_doc[key] = body[key]]. *)
Fixpoint merge_updates (keys : list string) (body doc : dict) : dict :=
  match keys with
  | [] => doc
  | key :: keys' =>
      match Dict.get key body with
      | Some v => merge_updates keys' body (Dict.set key v doc)
      | None => merge_updates keys' body doc
      end
  end.

(** [updated_any_field] at the end of that loop. *)
Definition updated_any_field (keys : list string) (body : dict) : bool :=
  existsb (fun key => Dict.mem key body) keys.

Section Handlers.

(** [jsonschema.validate], applied to an instance and a schema. *)
Variable jsonschema_validate : json -> json -> validation.

(** [uuid4 n] is the string of the [n]-th identifier that [uuid.uuid4()]
    hands out. *)
Variable uuid4 : nat -> string.

(** [str(v)], as an f-string renders a decoded JSON value. *)
Variable py_str : json -> string.

(** [str(uuid.uuid4())]. *)
Definition new_uuid : M string :=
  fun w =>
    (Ok (uuid4 (uuid_count w)),
     mkWorld (docs w) (calls w) (S (uuid_count w))).

(** [for room in items: room["room_id"] = str(uuid.uuid4())], returning
    the rooms as the loop leaves them. *)
Fixpoint assign_room_ids (items : list json) : M (list json) :=
  match items with
  | [] => ret []
  | room :: items' =>
      rid <- new_uuid ;;
      room' <- lift (Py.setitem room "room_id" (JStr rid)) ;;
      rest <- assign_room_ids items' ;;
      ret (room' :: rest)
  end.

(** Step 4.1 on [rooms = body["rooms"]].  The rooms of a list are updated
    in place; the items of a dict or of a string are strings, on which the
    assignment raises, so such a value comes back unchanged only when it is
    empty. *)
Definition set_room_ids (rooms : json) : M json :=
  match rooms with
  | JArr xs => xs' <- assign_room_ids xs ;; ret (JArr xs')
  | _ =>
      items <- lift (Py.iter rooms) ;;
      _ <- assign_room_ids items ;;
      ret rooms
  end.

Definition internal_error (msg : string) : response :=
  mkResponse 500 (error_body msg).

Definition create_location_try (req : HttpRequest) (location_schema : json)
  : M response :=
  body <- get_json req ;;
  (* 1 Quick mandatory field check *)
  missing <- lift (missing_fields required_fields body) ;;
  if negb (is_nil missing)
  then ret (mkResponse 400
              (error_body ("Missing mandatory field(s): "
                           ++ Py.repr_names missing)))
  else
    rooms0 <- lift (Py.getitem body "rooms") ;;
    items <- lift (Py.iter rooms0) ;;
    lacking <- lift (room_lacks_field items) ;;
    if lacking
    then ret (mkResponse 400
                (error_body "Missing mandatory field 'room_name' in rooms."))
    else
      (* 2 Check uniqueness of location_name across all docs *)
      loc_name <- lift (Py.getitem body "location_name") ;;
      existing_docs <- Store.query_items_where "location_name" loc_name ;;
      if negb (is_nil existing_docs)
      then ret (mkResponse 400
                  (error_body ("Location with name '" ++ py_str loc_name
                               ++ "' already exists.")))
      else
        (* 3 Validate the document against the schema *)
        match jsonschema_validate body location_schema with
        | ValidationError ve =>
            ret (mkResponse 400
                   (error_body ("JSON schema validation error: " ++ ve)))
        | InvalidSchema => raise SchemaError
        | Valid =>
            (* 4 All checks pass -> create new location *)
            location_id <- new_uuid ;;
            (* 4.1 Generate unique IDs for each room *)
            rooms1 <- lift (Py.getitem body "rooms") ;;
            rooms <- set_room_ids rooms1 ;;
            (* the rooms were updated inside [body] *)
            body' <- lift (Py.setitem body "rooms" rooms) ;;
            (* 4.2 Create the new document *)
            doc_id <- new_uuid ;;
            name <- lift (Py.getitem body' "location_name") ;;
            events_ids <- lift (Py.getitem body' "events_ids") ;;
            let new_doc :=
              [("id", JStr doc_id);
               ("location_id", JStr location_id);
               ("location_name", name);
               ("events_ids", events_ids);
               ("rooms", rooms)] in
            (* 4.3 Include additional fields *)
            items' <- lift (match body' with
                            | JObj kvs => Ok kvs
                            | _ => Raise AttributeError
                            end) ;;
            new_doc' <- lift (add_schema_fields items' location_schema
                                new_doc) ;;
            _ <- Store.create_item new_doc' ;;
            ret (mkResponse 202
                   (JObj [("message", JStr "Location created successfully.");
                          ("location_id", JStr location_id)]))
        end.

Definition create_location (req : HttpRequest) (location_schema : json)
  : world -> response * world :=
  try_except (create_location_try req location_schema)
    (internal_error "Internal Server Error").

Definition delete_location_try (req : HttpRequest) : M response :=
  location_id <-
    (if String.eqb (method req) "POST"
     then body <- get_json req ;; lift (Py.get body "location_id")
     else ret (params_get "location_id" (params req))) ;;
  if negb (Json.truthy location_id)
  then ret (mkResponse 400 (error_body "Missing 'location_id' parameter"))
  else
    found <- Store.query_items_where "location_id" location_id ;;
    match found with
    | [] =>
        ret (mkResponse 404
               (error_body ("Location '" ++ py_str location_id
                            ++ "' not found")))
    | doc_to_delete :: _ =>
        item_id <- lift (Py.getitem (JObj doc_to_delete) "id") ;;
        partition_key <-
          lift (Py.getitem (JObj doc_to_delete) "location_id") ;;
        _ <- Store.delete_item item_id partition_key ;;
        ret (mkResponse 200
               (JObj [("message",
                       JStr ("Location '" ++ py_str location_id
                             ++ "' deleted successfully."))]))
    end.

Definition delete_location (req : HttpRequest)
  : world -> response * world :=
  try_except (delete_location_try req)
    (internal_error "Internal Server Error").

Definition get_location_try (req : HttpRequest) : M response :=
  location_id <-
    (if String.eqb (method req) "GET"
     then ret (if is_nil (params req) then JNull
               else params_get "location_id" (params req))
     else
       decoded <- get_json req ;;
       let body := if Json.truthy decoded then decoded else JObj [] in
       lift (Py.get body "location_id")) ;;
  if Json.truthy location_id
  then
    found <- Store.query_items_where "location_id" location_id ;;
    match found with
    | [] =>
        ret (mkResponse 404
               (error_body ("Location '" ++ py_str location_id
                            ++ "' not found.")))
    | doc :: _ => ret (mkResponse 200 (JObj [("location", JObj doc)]))
    end
  else
    all <- Store.query_items_all ;;
    ret (mkResponse 200 (JObj [("locations", JArr (map JObj all))])).

Definition get_location (req : HttpRequest) : world -> response * world :=
  try_except (get_location_try req)
    (internal_error "Internal server error").

Definition edit_location_try (req : HttpRequest) (location_schema : json)
  : M response :=
  decoded <- get_json req ;;
  match decoded with
  | JObj ((_ :: _) as body) =>
      (* We must have at least location_id to find the document *)
      location_id <- lift (Py.get (JObj body) "location_id") ;;
      if negb (Json.truthy location_id)
      then ret (mkResponse 400
                  (error_body
                     "Missing 'location_id' field to identify the document to edit."))
      else
        found <- Store.query_items_where "location_id" location_id ;;
        match found with
        | [] =>
            ret (mkResponse 404
                   (error_body ("Location '" ++ py_str location_id
                                ++ "' not found, cannot edit.")))
        | existing :: _ =>
            let location_doc := merge_updates updatable_keys body existing in
            if negb (updated_any_field updatable_keys body)
            then ret (mkResponse 400
                        (error_body
                           "No updatable fields specified in request body."))
            else
              match jsonschema_validate (JObj location_doc) location_schema with
              | ValidationError ve =>
                  ret (mkResponse 400
                         (error_body
                            ("JSON schema validation error: " ++ ve)))
              | InvalidSchema => raise SchemaError
              | Valid =>
                  _ <- Store.replace_item location_doc location_doc ;;
                  ret (mkResponse 200
                         (JObj [("message",
                                 JStr ("Location '" ++ py_str location_id
                                       ++ "' updated successfully."));
                                ("location", JObj location_doc)]))
              end
        end
  | _ =>
      ret (mkResponse 400
             (error_body "Request body must be a valid JSON object."))
  end.

Definition edit_location (req : HttpRequest) (location_schema : json)
  : world -> response * world :=
  try_except (edit_location_try req location_schema)
    (internal_error "Internal Server Error").

End Handlers.

(* ================================================================== *)
(** ** A concrete runtime, for running the handlers on examples *)
(* ================================================================== *)

Module Sample.

Definition string_of_nat (n : nat) : string :=
  NilEmpty.string_of_uint (Nat.to_uint n).

Definition string_of_Z (z : Z) : string :=
  match z with
  | Zneg p => "-" ++ string_of_nat (Pos.to_nat p)
  | _ => string_of_nat (Z.to_nat z)
  end.

(** Distinct identifiers: [id-0], [id-1], ... *)
Definition uuid4 (n : nat) : string := "id-" ++ string_of_nat n.

(** [repr(v)], exact on strings that hold no quote, backslash or
    non-printable character. *)
Fixpoint repr (v : json) : string :=
  match v with
  | JNull => "None"
  | JBool true => "True"
  | JBool false => "False"
  | JNum n => string_of_Z n
  | JStr s => "'" ++ s ++ "'"
  | JArr xs => "[" ++ String.concat ", " (map repr xs) ++ "]"
  | JObj kvs =>
      "{"
      ++ String.concat ", "
           (map (fun kv => "'" ++ fst kv ++ "': " ++ repr (snd kv)) kvs)
      ++ "}"
  end.

(** [str(v)]: a string is printed as it is, anything else as its [repr]. *)
Definition py_str (v : json) : string :=
  match v with
  | JStr s => s
  | _ => repr v
  end.

(** The strings of a JSON list of strings. *)
Fixpoint names_of (xs : list json) : list string :=
  match xs with
  | [] => []
  | JStr s :: xs' => s :: names_of xs'
  | _ :: xs' => names_of xs'
  end.

(** [jsonschema.validate] on the schemas that constrain an instance by
    ["type": "object"] and ["required"] only (a ["properties"] table of
    empty sub-schemas constrains nothing): an object must hold every
    required name; anything else is refused when the schema asks for an
    object.  The message is the first line of the error's text. *)
Definition jsonschema_validate (instance schema : json) : validation :=
  match schema with
  | JObj keywords =>
      match instance with
      | JObj fields =>
          match Dict.get "required" keywords with
          | Some (JArr names) =>
              match filter (fun n => negb (Dict.mem n fields))
                      (names_of names) with
              | [] => Valid
              | n :: _ =>
                  ValidationError ("'" ++ n ++ "' is a required property")
              end
          | _ => Valid
          end
      | _ =>
          match Dict.get "type" keywords with
          | Some (JStr "object") =>
              ValidationError (repr instance ++ " is not of type 'object'")
          | _ => Valid
          end
      end
  | _ => Valid
  end.

(** A schema that requires the two fields the handler checks itself. *)
Definition location_schema : json :=
  JObj [("type", JStr "object");
        ("properties",
         JObj [("location_id", JObj []);
               ("location_name", JObj []);
               ("events_ids", JObj []);
               ("rooms", JObj []);
               ("description", JObj [])]);
        ("required", JArr [JStr "location_name"; JStr "rooms"])].

Definition room (name : string) (capacity : Z) : json :=
  JObj [("room_name", JStr name); ("capacity", JNum capacity)].

(** A stored location, as [create_location] lays it out. *)
Definition hall_a : dict :=
  [("id", JStr "doc-1");
   ("location_id", JStr "loc-1");
   ("location_name", JStr "Hall A");
   ("events_ids", JArr []);
   ("rooms", JArr [JObj [("room_name", JStr "R1");
                         ("capacity", JNum 50);
                         ("room_id", JStr "room-1")]])].

Definition hall_b : dict :=
  [("id", JStr "doc-2");
   ("location_id", JStr "loc-2");
   ("location_name", JStr "Hall B");
   ("events_ids", JArr [JStr "ev-7"]);
   ("rooms", JArr [])].

Definition empty_world : world := mkWorld [] [] 0.

Definition one_hall : world := mkWorld [hall_a] [] 0.

Definition two_halls : world := mkWorld [hall_a; hall_b] [] 0.

Definition post (b : json) : HttpRequest := mkRequest "POST" [] (Some b).

Definition get_with (ps : list (string * string)) : HttpRequest :=
  mkRequest "GET" ps None.

Definition create (req : HttpRequest) (schema : json)
  : world -> response * world :=
  create_location jsonschema_validate uuid4 py_str req schema.

Definition delete (req : HttpRequest) : world -> response * world :=
  delete_location py_str req.

Definition get (req : HttpRequest) : world -> response * world :=
  get_location py_str req.

Definition edit (req : HttpRequest) (schema : json)
  : world -> response * world :=
  edit_location jsonschema_validate py_str req schema.

End Sample.

(* ================================================================== *)
(** ** Vocabulary of the statements *)
(* ================================================================== *)

(** The request carries [lid] under ["location_id"] in its query parameters
    ([JNull], Python's [None], when there is no such parameter). *)
Definition in_params (req : HttpRequest) (lid : json) : Prop :=
  params_get "location_id" (params req) = lid.

(** The request body is an object that binds ["location_id"] to [lid]
    ([JNull] when the object has no such field). *)
Definition in_body (req : HttpRequest) (lid : json) : Prop :=
  exists b, json_body req = Some (JObj b)
            /\ Py.get (JObj b) "location_id" = Ok lid.

(** Where [get_location] looks for the identifier: the query parameters of
    a GET, the body of anything else. *)
Definition get_reads (req : HttpRequest) (lid : json) : Prop :=
  (method req = "GET" /\ in_params req lid)
  \/ (method req <> "GET" /\ in_body req lid).

(** Where [delete_location] looks for it: the body of a POST, the query
    parameters of anything else. *)
Definition delete_reads (req : HttpRequest) (lid : json) : Prop :=
  (method req = "POST" /\ in_body req lid)
  \/ (method req <> "POST" /\ in_params req lid).

(** A room that is an object holding both mandatory fields. *)
Definition room_complete (room : json) : bool :=
  match room with
  | JObj d => Dict.mem "room_name" d && Dict.mem "capacity" d
  | _ => false
  end.

(** ["rooms"], when the body has it, can be iterated and each of its items
    supports a membership test, as any JSON array of objects does. *)
Definition rooms_checkable (b : dict) : bool :=
  match Dict.get "rooms" b with
  | None => true
  | Some rooms =>
      match Py.iter rooms with
      | Ok items => forallb Json.is_container items
      | Raise _ => false
      end
  end.

(** A room that is an object holding ["room_name"]. *)
Definition has_room_name (room : json) : bool :=
  match room with
  | JObj d => Dict.mem "room_name" d
  | _ => false
  end.

(** A room that is an object without ["capacity"]. *)
Definition lacks_capacity (room : json) : bool :=
  match room with
  | JObj d => negb (Dict.mem "capacity" d)
  | _ => false
  end.

(** The ["room_id"] of a room of a stored document. *)
Definition room_id_of (room : json) : option json :=
  match room with
  | JObj d => Dict.get "room_id" d
  | _ => None
  end.

Fixpoint all_distinct (l : list string) : bool :=
  match l with
  | [] => true
  | x :: l' => negb (existsb (String.eqb x) l') && all_distinct l'
  end.

(** The identifiers generated for the rooms by a call of [create_location]
    that starts in [w]: the first one is the location's. *)
Definition room_uuids (uuid4 : nat -> string) (w : world) (n : nat)
  : list string :=
  map uuid4 (seq (S (uuid_count w)) n).

(** The rooms [items] once the loop of step 4.1 has given them the
    identifiers [uuid4 n], [uuid4 (n + 1)], ... *)
Fixpoint with_room_ids (uuid4 : nat -> string) (n : nat) (items : list json)
  : list json :=
  match items with
  | [] => []
  | JObj d :: items' =>
      JObj (Dict.set "room_id" (JStr (uuid4 n)) d)
      :: with_room_ids uuid4 (S n) items'
  | room :: items' => room :: with_room_ids uuid4 (S n) items'
  end.

(** What a successful [create_location] has done, from [w] to the outcome
    [out]: the answer is 202 with the generated identifier [lid]; one
    document was added, through one [create_item] call; it is the only
    stored document that carries [lid]; it holds the name and the events of
    the request; and its rooms carry the generated identifiers [rids], one
    each, no two of them equal. *)
Definition created (w : world) (name events : json) (lid : string)
  (rids : list string) (out : response * world) : Prop :=
  fst out
  = mkResponse 202 (JObj [("message", JStr "Location created successfully.");
                          ("location_id", JStr lid)])
  /\ exists doc stored_rooms,
       docs (snd out) = (docs w ++ [doc])%list
       /\ calls (snd out) = (calls w ++ [CreateItem doc])%list
       /\ Store.select "location_id" (JStr lid) (docs (snd out)) = [doc]
       /\ Dict.get "location_name" doc = Some name
       /\ Dict.get "events_ids" doc = Some events
       /\ Dict.get "rooms" doc = Some (JArr stored_rooms)
       /\ map room_id_of stored_rooms = map (fun r => Some (JStr r)) rids
       /\ NoDup (map room_id_of stored_rooms).

(** A computation that issues no mutating call and leaves the documents as
    they are. *)
Definition quiet {A : Type} (m : M A) : Prop :=
  forall w, docs (snd (m w)) = docs w /\ calls (snd (m w)) = calls w.

(** A computation that issues at most one mutating call, and whose call, if
    any, either took effect and is followed by the response [ok], or raised
    and left the documents as they were. *)
Definition single_write (ok : Z) (m : M response) : Prop :=
  forall w,
    (docs (snd (m w)) = docs w /\ calls (snd (m w)) = calls w)
    \/ ((exists c, calls (snd (m w)) = (calls w ++ [c])%list)
        /\ match fst (m w) with
           | Ok r => status_code r = ok
           | Raise _ => docs (snd (m w)) = docs w
           end).

(** A mutating call is logged, and leaves the documents alone when it
    raises. *)
Definition logged_call (m : M unit) : Prop :=
  forall w,
    (exists c, calls (snd (m w)) = (calls w ++ [c])%list)
    /\ match fst (m w) with
       | Ok _ => True
       | Raise _ => docs (snd (m w)) = docs w
       end.

(** What the claim on mutating calls asks of a handler with success code
    [ok]. *)
Definition writes_at_most_once (ok : Z) (h : world -> response * world)
  : Prop :=
  forall w,
    (calls (snd (h w)) = calls w \/ exists c, calls (snd (h w)) = (calls w ++ [c])%list)
    /\ (status_code (fst (h w)) <> ok -> docs (snd (h w)) = docs w).

(** [delete_location] on [req], which names [lid], removes the stored
    document [d] with internal id [i]: [d] is the first document of [w] whose
    ["location_id"] is [lid]; exactly one call, [delete_item(i, lid)], is
    issued; the answer is 200 and [d] is gone from the new state [w1].  When
    no other document carries [lid], the same request in [w1] is answered
    404 and leaves [w1] as it is. *)
Definition deletes_document (py_str : json -> string)
  (delete : HttpRequest -> world -> response * world)
  (req : HttpRequest) (lid : json) (w : world) (d : dict) (rest : list dict)
  (i : json) : Prop :=
  exists pre post w1,
    docs w = (pre ++ d :: post)%list
    /\ Store.select "location_id" lid pre = []
    /\ Dict.get "location_id" d = Some lid
    /\ w1 = mkWorld (pre ++ post) (calls w ++ [DeleteItem i lid]) (uuid_count w)
    /\ delete req w
       = (mkResponse 200
            (JObj [("message",
                    JStr ("Location '" ++ py_str lid
                          ++ "' deleted successfully."))]), w1)
    /\ (rest = [] ->
        status_code (fst (delete req w1)) = 404%Z /\ snd (delete req w1) = w1).



(** A computation whose response, when it returns one, has its status among
    [codes]. *)
Definition answers (codes : list Z) (m : M response) : Prop :=
  forall w,
    match fst (m w) with
    | Ok r => In (status_code r) codes
    | Raise _ => True
    end.

(** A stored document that lacks the ["rooms"] the sample schema requires. *)
Definition shed : dict :=
  [("id", JStr "doc-3");
   ("location_id", JStr "loc-3");
   ("location_name", JStr "Shed")].

(** The keys [create_location] writes itself into the new document. *)
Definition core_keys : list string :=
  ["id"; "location_id"; "location_name"; "events_ids"; "rooms"].

Definition core (k : string) : bool := existsb (String.eqb k) core_keys.

(** The new document of step 4.2, before the additional fields. *)
Definition core_doc (doc_id location_id : string) (name events rooms : json)
  : dict :=
  [("id", JStr doc_id);
   ("location_id", JStr location_id);
   ("location_name", name);
   ("events_ids", events);
   ("rooms", rooms)].

(** The response of a successful [create_location]. *)
Definition created_response (location_id : string) : response :=
  mkResponse 202
    (JObj [("message", JStr "Location created successfully.");
           ("location_id", JStr location_id)]).

(** What a 202 from [create_location] implies, from [w] to [w'] with
    response [resp]: the body was an object holding [location_name],
    [events_ids] and [rooms]; no stored document had that name; the body
    validated; the response carries the first identifier generated; and one
    document was appended, through one [create_item] call, that carries
    that identifier and the name and events of the body. *)
Definition accepted (jsonschema_validate : json -> json -> validation)
  (uuid4 : nat -> string) (location_schema : json) (req : HttpRequest)
  (w : world) (resp : response) (w' : world) : Prop :=
  exists b name events rooms doc,
    json_body req = Some (JObj b)
    /\ Dict.get "location_name" b = Some name
    /\ Dict.get "events_ids" b = Some events
    /\ Dict.get "rooms" b = Some rooms
    /\ Store.select "location_name" name (docs w) = []
    /\ jsonschema_validate (JObj b) location_schema = Valid
    /\ resp = created_response (uuid4 (uuid_count w))
    /\ docs w' = (docs w ++ [doc])%list
    /\ calls w' = (calls w ++ [CreateItem doc])%list
    /\ Dict.get "location_id" doc = Some (JStr (uuid4 (uuid_count w)))
    /\ Dict.get "location_name" doc = Some name
    /\ Dict.get "events_ids" doc = Some events.

(** How the stored document [doc] relates to the body [b] outside the core
    keys: a key the body lacks is absent from the document; a key the body
    holds is copied when the schema's ["properties"] declares it and is
    dropped otherwise.  The document's ["id"] is the last identifier
    generated, whatever the body says. *)
Definition additional_fields (uuid4 : nat -> string) (location_schema : json)
  (b doc : dict) (w' : world) : Prop :=
  Dict.get "id" doc = Some (JStr (uuid4 (Nat.pred (uuid_count w'))))
  /\ forall k,
       core k = false ->
       (Dict.get k b = None -> Dict.get k doc = None)
       /\ (forall v,
             Dict.get k b = Some v ->
             exists properties declared,
               Py.getitem location_schema "properties" = Ok properties
               /\ Py.contains k properties = Ok declared
               /\ Dict.get k doc = if declared then Some v else None).


(** The location names carried by stored documents, in order. *)
Definition names (ds : list dict) : list json :=
  flat_map (fun d => match Dict.get "location_name" d with
                     | Some v => [v]
                     | None => []
                     end) ds.

(** The two shapes of an answer: a success (200 or 202) whose body has no
    ["error"] key, or an error (400, 404 or 500) whose body is exactly one
    ["error"] string. *)
Definition shaped (r : response) : Prop :=
  (In (status_code r) [200; 202]%Z
   /\ Py.getitem (body r) "error" = Raise KeyError)
  \/ (In (status_code r) [400; 404; 500]%Z
      /\ exists msg, body r = error_body msg).

(** A computation whose response, when it returns one, satisfies [P]. *)
Definition responds (P : response -> Prop) (m : M response) : Prop :=
  forall w,
    match fst (m w) with
    | Ok r => P r
    | Raise _ => True
    end.

(** A second stored document under the [location_id] of [Sample.hall_a],
    with an internal id of its own. *)
Definition hall_a_twin : dict :=
  [("id", JStr "doc-9");
   ("location_id", JStr "loc-1");
   ("location_name", JStr "Hall A annex");
   ("events_ids", JArr []);
   ("rooms", JArr [])].

(** A stored room is the room that was sent, an object, with its
    ["room_id"] assigned the [n]-th generated identifier: that is what its
    ["room_id"] now reads, whatever it read before, and every other field
    reads as sent. *)
Definition stored_room (uuid4 : nat -> string) (n : nat) (sent stored : json)
  : Prop :=
  exists d d',
    sent = JObj d
    /\ stored = JObj d'
    /\ d' = Dict.set "room_id" (JStr (uuid4 n)) d
    /\ Dict.get "room_id" d' = Some (JStr (uuid4 n))
    /\ forall k, k <> "room_id" -> Dict.get k d' = Dict.get k d.

(** The rooms [stored] are the rooms [sent], one for one and in order, the
    [i]-th with the identifier [uuid4 (first + i)]. *)
Definition stored_rooms (uuid4 : nat -> string) (first : nat)
  (sent stored : list json) : Prop :=
  length stored = length sent
  /\ forall i room,
       nth_error sent i = Some room ->
       exists room',
         nth_error stored i = Some room'
         /\ stored_room uuid4 (first + i) room room'.

(* ================================================================== *)
(** * Properties *)
(* ================================================================== *)

(** Messages and Python lookups are kept folded while a handler is run
    symbolically. *)
#[local] Arguments String.append : simpl never.
#[local] Arguments Py.get : simpl never.

(** ** JSON equality *)

Lemma json_eqb_refl : forall a, Json.eqb a a = true.
Proof.
  fix IH 1.
  intros [ | b | n | s | xs | kvs ]; simpl.
  - reflexivity.
  - apply Bool.eqb_reflx.
  - apply Z.eqb_refl.
  - apply String.eqb_refl.
  - induction xs as [ | x xs IHxs ]; [ reflexivity | ].
    rewrite (IH x). exact IHxs.
  - induction kvs as [ | [k v] kvs IHkvs ]; [ reflexivity | ].
    rewrite String.eqb_refl, (IH v). exact IHkvs.
Qed.

Lemma json_eqb_eq : forall a b, Json.eqb a b = true -> a = b.
Proof.
  fix IH 1.
  intros [ | x | x | x | xs | xs ] [ | y | y | y | ys | ys ]; simpl;
    try discriminate; intros H.
  - reflexivity.
  - apply Bool.eqb_prop in H. congruence.
  - apply Z.eqb_eq in H. congruence.
  - apply String.eqb_eq in H. congruence.
  - f_equal. revert ys H.
    induction xs as [ | x xs IHxs ]; intros [ | y ys ] H;
      try discriminate; [ reflexivity | ].
    apply andb_true_iff in H. destruct H as [H1 H2].
    f_equal; [ exact (IH x y H1) | exact (IHxs ys H2) ].
  - f_equal. revert ys H.
    induction xs as [ | [k x] xs IHxs ]; intros [ | [k' y] ys ] H;
      try discriminate; [ reflexivity | ].
    apply andb_true_iff in H. destruct H as [H12 H3].
    apply andb_true_iff in H12. destruct H12 as [H1 H2].
    apply String.eqb_eq in H1.
    f_equal; [ f_equal; [ exact H1 | exact (IH x y H2) ] | exact (IHxs ys H3) ].
Qed.

(** ** Dictionaries *)

Lemma dict_get_set_same : forall k v d, Dict.get k (Dict.set k v d) = Some v.
Proof.
  intros k v d. induction d as [ | [k' v'] d IH ]; simpl.
  - rewrite String.eqb_refl. reflexivity.
  - destruct (String.eqb k k') eqn:E; simpl; rewrite E; [ reflexivity | exact IH ].
Qed.

Lemma dict_get_set_other :
  forall k k' v d, k <> k' -> Dict.get k (Dict.set k' v d) = Dict.get k d.
Proof.
  intros k k' v d Hne. induction d as [ | [k0 v0] d IH ]; simpl.
  - destruct (String.eqb k k') eqn:E; [ | reflexivity ].
    apply String.eqb_eq in E. contradiction.
  - destruct (String.eqb k' k0) eqn:E; simpl.
    + apply String.eqb_eq in E. subst k0.
      destruct (String.eqb k k') eqn:E'; [ | reflexivity ].
      apply String.eqb_eq in E'. contradiction.
    + destruct (String.eqb k k0); [ reflexivity | exact IH ].
Qed.

Lemma dict_mem_true : forall k d v, Dict.get k d = Some v -> Dict.mem k d = true.
Proof. intros k d v H. unfold Dict.mem. rewrite H. reflexivity. Qed.

Lemma dict_mem_false : forall k d, Dict.get k d = None -> Dict.mem k d = false.
Proof. intros k d H. unfold Dict.mem. rewrite H. reflexivity. Qed.

#[local] Arguments Dict.get : simpl never.
#[local] Arguments Dict.mem : simpl never.
#[local] Arguments Dict.set : simpl never.

(** ** The container *)

Lemma field_is_get :
  forall f v d, Store.field_is f v d = true <-> Dict.get f d = Some v.
Proof.
  intros f v d. unfold Store.field_is. split.
  - destruct (Dict.get f d) as [x | ]; [ | discriminate ].
    intros H. apply json_eqb_eq in H. congruence.
  - intros ->. apply json_eqb_refl.
Qed.

Lemma select_split :
  forall f v ds d rest,
    Store.select f v ds = d :: rest ->
    exists pre post,
      ds = (pre ++ d :: post)%list
      /\ Store.select f v pre = []
      /\ Store.select f v post = rest
      /\ Dict.get f d = Some v.
Proof.
  intros f v ds d rest. unfold Store.select.
  induction ds as [ | x ds IH ]; simpl; [ discriminate | ].
  destruct (Store.field_is f v x) eqn:E; intros H.
  - injection H as -> Hrest. exists [], ds. simpl.
    repeat split; try assumption. apply field_is_get. exact E.
  - destruct (IH H) as (pre & post & -> & Hpre & Hpost & Hd).
    exists (x :: pre), post. simpl. rewrite E. repeat split; assumption.
Qed.

Lemma select_nil_none :
  forall f v ds d,
    Store.select f v ds = [] -> In d ds -> Store.field_is f v d = false.
Proof.
  intros f v ds d. unfold Store.select.
  induction ds as [ | x ds IH ]; simpl; [ contradiction | ].
  destruct (Store.field_is f v x) eqn:E; [ discriminate | ].
  intros H [-> | Hin]; [ exact E | exact (IH H Hin) ].
Qed.

Lemma select_hit :
  forall f v ds d,
    In d ds -> Dict.get f d = Some v ->
    exists d' rest, Store.select f v ds = d' :: rest.
Proof.
  intros f v ds d Hin Hget.
  destruct (Store.select f v ds) as [ | d' rest ] eqn:E; [ | eauto ].
  apply field_is_get in Hget.
  rewrite (select_nil_none _ _ _ _ E Hin) in Hget. discriminate.
Qed.

Lemma is_item_field :
  forall i pk d,
    Store.is_item i (Some pk) d = true ->
    Store.field_is "location_id" pk d = true.
Proof.
  intros i pk d. unfold Store.is_item, Store.field_is, Store.opt_eqb.
  intros H. apply andb_true_iff in H. destruct H as [_ H].
  destruct (Dict.get "location_id" d); [ exact H | discriminate ].
Qed.

Lemma is_item_self :
  forall i pk d,
    Dict.get "id" d = Some i -> Dict.get "location_id" d = Some pk ->
    Store.is_item (Some i) (Some pk) d = true.
Proof.
  intros i pk d Hi Hpk. unfold Store.is_item, Store.opt_eqb.
  rewrite Hi, Hpk, !json_eqb_refl. reflexivity.
Qed.

Section FirstMatch.

Variable p : dict -> bool.
Variables (pre post : list dict) (d : dict).
Hypothesis pre_free : forall x, In x pre -> p x = false.
Hypothesis hit : p d = true.

Lemma existsb_first : existsb p (pre ++ d :: post) = true.
Proof.
  apply existsb_exists. exists d. split; [ | exact hit ].
  apply in_or_app. right. left. reflexivity.
Qed.

Lemma remove_first_split :
  Store.remove_first p (pre ++ d :: post) = (pre ++ post)%list.
Proof.
  induction pre as [ | x l IH ]; simpl.
  - rewrite hit. reflexivity.
  - rewrite (pre_free x (or_introl eq_refl)). f_equal.
    apply IH. intros y Hy. apply pre_free. right. exact Hy.
Qed.

Lemma replace_first_split :
  forall new,
    Store.replace_first p new (pre ++ d :: post) = (pre ++ new :: post)%list.
Proof.
  intros new. induction pre as [ | x l IH ]; simpl.
  - rewrite hit. reflexivity.
  - rewrite (pre_free x (or_introl eq_refl)). f_equal.
    apply IH. intros y Hy. apply pre_free. right. exact Hy.
Qed.

End FirstMatch.

Lemma pre_free_of_select :
  forall i pk pre,
    Store.select "location_id" pk pre = [] ->
    forall x, In x pre -> Store.is_item i (Some pk) x = false.
Proof.
  intros i pk pre Hsel x Hin.
  destruct (Store.is_item i (Some pk) x) eqn:E; [ | reflexivity ].
  apply is_item_field in E.
  rewrite (select_nil_none _ _ _ _ Hsel Hin) in E. discriminate.
Qed.

(** ** Reading the identifier off the request *)

Lemma params_get_nil_or :
  forall ps, (if is_nil ps then JNull else params_get "location_id" ps)
             = params_get "location_id" ps.
Proof. intros [ | ? ? ]; reflexivity. Qed.

Section Reading.

Variable py_str : json -> string.

(** [get_location] goes on with the identifier that [get_reads] names. *)
Lemma get_location_reads :
  forall req lid w,
    get_reads req lid ->
    get_location py_str req w
    = (if Json.truthy lid
       then match Store.select "location_id" lid (docs w) with
            | [] => mkResponse 404
                      (error_body ("Location '" ++ py_str lid ++ "' not found."))
            | doc :: _ => mkResponse 200 (JObj [("location", JObj doc)])
            end
       else mkResponse 200 (JObj [("locations", JArr (map JObj (docs w)))]),
       w).
Proof.
  intros req lid w [[Hm Hp] | [Hm (b & Hb & Hg)]];
    unfold get_location, try_except, get_location_try, bind, get_json.
  - rewrite Hm. cbn. rewrite params_get_nil_or. red in Hp. rewrite Hp.
    destruct (Json.truthy lid); cbn; [ | reflexivity ].
    destruct (Store.select "location_id" lid (docs w)); reflexivity.
  - apply String.eqb_neq in Hm. rewrite Hm, Hb.
    destruct b as [ | kv b ]; cbn; rewrite Hg;
      (destruct (Json.truthy lid); cbn; [ | reflexivity ]);
      destruct (Store.select "location_id" lid (docs w)); reflexivity.
Qed.

End Reading.

Ltac read_delete_id H :=
  let Hm := fresh "Hm" in
  let Hb := fresh "Hb" in
  let Hg := fresh "Hg" in
  let b := fresh "b" in
  destruct H as [[Hm (b & Hb & Hg)] | [Hm Hg]];
  unfold delete_location, try_except, delete_location_try, bind, get_json, lift;
  [ rewrite Hm, Hb; cbn; rewrite Hg
  | apply String.eqb_neq in Hm; rewrite Hm; cbn; red in Hg; rewrite Hg ].

Section Deleting.

Variable py_str : json -> string.

Lemma delete_location_missing :
  forall req lid w,
    delete_reads req lid -> Json.truthy lid = false ->
    delete_location py_str req w
    = (mkResponse 400 (error_body "Missing 'location_id' parameter"), w).
Proof.
  intros req lid w Hr Ht. read_delete_id Hr; rewrite Ht; reflexivity.
Qed.

Lemma delete_location_not_found :
  forall req lid w,
    delete_reads req lid -> Json.truthy lid = true ->
    Store.select "location_id" lid (docs w) = [] ->
    delete_location py_str req w
    = (mkResponse 404
         (error_body ("Location '" ++ py_str lid ++ "' not found")), w).
Proof.
  intros req lid w Hr Ht Hsel.
  read_delete_id Hr; rewrite Ht; cbn; rewrite Hsel; reflexivity.
Qed.

Lemma delete_location_found :
  forall req lid w d rest i,
    delete_reads req lid -> Json.truthy lid = true ->
    Store.select "location_id" lid (docs w) = d :: rest ->
    Dict.get "id" d = Some i ->
    delete_location py_str req w
    = (mkResponse 200
         (JObj [("message",
                 JStr ("Location '" ++ py_str lid
                       ++ "' deleted successfully."))]),
       mkWorld (Store.remove_first (Store.is_item (Some i) (Some lid)) (docs w))
         (calls w ++ [DeleteItem i lid]) (uuid_count w)).
Proof.
  intros req lid w d rest i Hr Ht Hsel Hid.
  destruct (select_split _ _ _ _ _ Hsel) as (pre & post & Hw & Hpre & _ & Hlid).
  assert (Hex : existsb (Store.is_item (Some i) (Some lid)) (docs w) = true).
  { rewrite Hw. apply existsb_first. apply is_item_self; assumption. }
  read_delete_id Hr; rewrite Ht; cbn; rewrite Hsel; cbn;
    rewrite Hid, Hlid; cbn; unfold Store.delete_item; cbn;
    rewrite Hex; reflexivity.
Qed.

End Deleting.

(* ================================================================== *)
(** ** Get *)
(* ================================================================== *)




(* ================================================================== *)
(** ** Delete *)
(* ================================================================== *)

(** Deleting the first match of a selection leaves the rest of it. *)
Lemma select_after_remove :
  forall lid i pre d post,
    Store.select "location_id" lid pre = [] ->
    Dict.get "id" d = Some i ->
    Dict.get "location_id" d = Some lid ->
    Store.remove_first (Store.is_item (Some i) (Some lid)) (pre ++ d :: post)
    = (pre ++ post)%list
    /\ Store.select "location_id" lid (pre ++ post)
       = Store.select "location_id" lid post.
Proof.
  intros lid i pre d post Hpre Hid Hlid. split.
  - apply remove_first_split.
    + apply pre_free_of_select. exact Hpre.
    + apply is_item_self; assumption.
  - unfold Store.select in *. rewrite filter_app, Hpre. reflexivity.
Qed.

(** C5, as stated, fails twice.  A POST whose body is [null] supplies no
    [location_id], yet [body.get] raises on it and the answer is 500, not
    400.  And when two stored documents carry the same [location_id],
    deleting it twice answers 200 then 200, not 404, and the second call
    changes the store again. *)
Lemma delete_location_null_body_and_shared_id :
  (let req := Sample.post JNull in
   json_body req = Some JNull
   /\ Sample.delete req Sample.two_halls
      = (mkResponse 500 (error_body "Internal Server Error"), Sample.two_halls)
   /\ status_code (fst (Sample.delete req Sample.two_halls)) <> 400%Z)
  /\ (let req := Sample.get_with [("location_id", "loc-1")] in
      let w := mkWorld [Sample.hall_a; hall_a_twin] [] 0 in
      let once := Sample.delete req w in
      let twice := Sample.delete req (snd once) in
      Store.select "location_id" (JStr "loc-1") (docs w)
      = [Sample.hall_a; hall_a_twin]
      /\ status_code (fst once) = 200%Z
      /\ status_code (fst twice) = 200%Z
      /\ status_code (fst twice) <> 404%Z
      /\ docs (snd once) = [hall_a_twin]
      /\ docs (snd twice) = []
      /\ docs (snd twice) <> docs (snd once)).
Proof.
  cbv zeta. split.
  - split; [ reflexivity | ]. split; [ reflexivity | ].
    vm_compute. discriminate.
  - do 3 (split; [ reflexivity | ]).
    split; [ vm_compute; discriminate | ].
    do 2 (split; [ reflexivity | ]).
    vm_compute. discriminate.
Qed.

(** C5 (amended): on a request from which [delete_location] can read the
    identifier (a POST whose body is a JSON object, any other method through
    its query parameters), it answers 400 when the [location_id] is absent
    or empty (falsy), leaving the store unchanged; 404, leaving the store
    unchanged, when a non-empty [location_id] matches no stored document;
    and when it matches and the first matching document has an internal id,
    it calls [delete_item] with that document's internal id and its
    [location_id] as partition key, which removes that document, and answers
    200.  Hence, when exactly one stored document carries the identifier,
    deleting it twice answers 200 then 404, and the second call leaves the
    state of the first. *)
Theorem delete_location_behaviour :
  forall (py_str : json -> string) req lid w,
    delete_reads req lid ->
    (Json.truthy lid = false ->
     delete_location py_str req w
     = (mkResponse 400 (error_body "Missing 'location_id' parameter"), w))
    /\ (Json.truthy lid = true ->
        Store.select "location_id" lid (docs w) = [] ->
        delete_location py_str req w
        = (mkResponse 404
             (error_body ("Location '" ++ py_str lid ++ "' not found")), w))
    /\ (Json.truthy lid = true ->
        forall d rest i,
          Store.select "location_id" lid (docs w) = d :: rest ->
          Dict.get "id" d = Some i ->
          deletes_document py_str (delete_location py_str) req lid w d rest i).
Proof.
  intros py_str req lid w Hr. split; [ | split ].
  - intros Ht. apply delete_location_missing with (lid := lid); assumption.
  - intros Ht Hsel. apply delete_location_not_found; assumption.
  - intros Ht d rest i Hsel Hid.
    destruct (select_split _ _ _ _ _ Hsel)
      as (pre & post & Hw & Hpre & Hpost & Hlid).
    destruct (select_after_remove lid i pre d post Hpre Hid Hlid)
      as [Hrm Hsel'].
    exists pre, post,
      (mkWorld (pre ++ post) (calls w ++ [DeleteItem i lid]) (uuid_count w)).
    split; [ exact Hw | ]. split; [ exact Hpre | ].
    split; [ exact Hlid | ]. split; [ reflexivity | ]. split.
    + rewrite (delete_location_found py_str req lid w d rest i Hr Ht Hsel Hid).
      rewrite Hw, Hrm. reflexivity.
    + intros ->.
      rewrite (delete_location_not_found py_str req lid _ Hr Ht).
      * split; reflexivity.
      * cbn [docs]. rewrite Hsel'. exact Hpost.
Qed.

Lemma delete_location_behaviour_witness :
  (delete_reads (Sample.post (JObj [("name", JStr "x")])) JNull
   /\ Sample.delete (Sample.post (JObj [("name", JStr "x")])) Sample.two_halls
      = (mkResponse 400 (error_body "Missing 'location_id' parameter"),
         Sample.two_halls))
  /\ (delete_reads (Sample.get_with [("location_id", "loc-9")]) (JStr "loc-9")
      /\ Sample.delete (Sample.get_with [("location_id", "loc-9")])
           Sample.two_halls
         = (mkResponse 404 (error_body "Location 'loc-9' not found"),
            Sample.two_halls))
  /\ (delete_reads (Sample.get_with [("location_id", "loc-1")]) (JStr "loc-1")
      /\ Store.select "location_id" (JStr "loc-1") (docs Sample.two_halls)
         = [Sample.hall_a]
      /\ Dict.get "id" Sample.hall_a = Some (JStr "doc-1")
      /\ deletes_document Sample.py_str Sample.delete
           (Sample.get_with [("location_id", "loc-1")]) (JStr "loc-1")
           Sample.two_halls Sample.hall_a [] (JStr "doc-1")).
Proof.
  split; [ | split ].
  - assert (Hr : delete_reads (Sample.post (JObj [("name", JStr "x")])) JNull).
    { left. split; [ reflexivity | ]. eexists. split; reflexivity. }
    split; [ exact Hr | ].
    exact (proj1 (delete_location_behaviour Sample.py_str _ _
                    Sample.two_halls Hr) eq_refl).
  - assert (Hr : delete_reads (Sample.get_with [("location_id", "loc-9")])
                   (JStr "loc-9"))
      by (right; split; [ discriminate | reflexivity ]).
    split; [ exact Hr | ].
    exact (proj1 (proj2 (delete_location_behaviour Sample.py_str _ _
                           Sample.two_halls Hr)) eq_refl eq_refl).
  - assert (Hr : delete_reads (Sample.get_with [("location_id", "loc-1")])
                   (JStr "loc-1"))
      by (right; split; [ discriminate | reflexivity ]).
    split; [ exact Hr | ].
    split; [ reflexivity | ]. split; [ reflexivity | ].
    exact (proj2 (proj2 (delete_location_behaviour Sample.py_str _ _
                           Sample.two_halls Hr))
             eq_refl Sample.hall_a [] (JStr "doc-1") eq_refl eq_refl).
Defined.

(* ================================================================== *)
(** ** The empty identifier *)
(* ================================================================== *)

(** C10: a [location_id] that is supplied as the empty string is handled as
    if it were absent.  [get_location] answers 200 with the whole collection
    under [locations] (so never 404), and [delete_location] answers 400
    "missing parameter" (not 404); neither touches the store. *)
Theorem empty_location_id_is_absent :
  forall (py_str : json -> string) req w,
    (get_reads req (JStr EmptyString) ->
     get_location py_str req w
     = (mkResponse 200 (JObj [("locations", JArr (map JObj (docs w)))]), w))
    /\ (delete_reads req (JStr EmptyString) ->
        delete_location py_str req w
        = (mkResponse 400 (error_body "Missing 'location_id' parameter"), w)).
Proof.
  intros py_str req w. split; intros Hr.
  - rewrite (get_location_reads py_str req (JStr EmptyString) w Hr). reflexivity.
  - apply delete_location_missing with (lid := JStr EmptyString); [ exact Hr | reflexivity ].
Qed.

Lemma empty_location_id_is_absent_witness :
  (get_reads (Sample.get_with [("location_id", EmptyString)]) (JStr EmptyString)
   /\ Sample.get (Sample.get_with [("location_id", EmptyString)]) Sample.two_halls
      = (mkResponse 200
           (JObj [("locations", JArr [JObj Sample.hall_a; JObj Sample.hall_b])]),
         Sample.two_halls))
  /\ (get_reads (Sample.post (JObj [("location_id", JStr EmptyString)])) (JStr EmptyString)
      /\ Sample.get (Sample.post (JObj [("location_id", JStr EmptyString)]))
           Sample.two_halls
         = (mkResponse 200
              (JObj [("locations",
                      JArr [JObj Sample.hall_a; JObj Sample.hall_b])]),
            Sample.two_halls))
  /\ (delete_reads (Sample.get_with [("location_id", EmptyString)]) (JStr EmptyString)
      /\ Sample.delete (Sample.get_with [("location_id", EmptyString)]) Sample.two_halls
         = (mkResponse 400 (error_body "Missing 'location_id' parameter"),
            Sample.two_halls))
  /\ (delete_reads (Sample.post (JObj [("location_id", JStr EmptyString)])) (JStr EmptyString)
      /\ Sample.delete (Sample.post (JObj [("location_id", JStr EmptyString)]))
           Sample.two_halls
         = (mkResponse 400 (error_body "Missing 'location_id' parameter"),
            Sample.two_halls)).
Proof.
  assert (Hg1 : get_reads (Sample.get_with [("location_id", EmptyString)]) (JStr EmptyString))
    by (left; split; reflexivity).
  assert (Hg2 : get_reads (Sample.post (JObj [("location_id", JStr EmptyString)]))
                  (JStr EmptyString)).
  { right. split; [ discriminate | ]. eexists. split; reflexivity. }
  assert (Hd1 : delete_reads (Sample.get_with [("location_id", EmptyString)]) (JStr EmptyString))
    by (right; split; [ discriminate | reflexivity ]).
  assert (Hd2 : delete_reads (Sample.post (JObj [("location_id", JStr EmptyString)]))
                  (JStr EmptyString)).
  { left. split; [ reflexivity | ]. eexists. split; reflexivity. }
  split; [ split; [ exact Hg1 | ] | ].
  { exact (proj1 (empty_location_id_is_absent Sample.py_str _ Sample.two_halls)
             Hg1). }
  split; [ split; [ exact Hg2 | ] | ].
  { exact (proj1 (empty_location_id_is_absent Sample.py_str _ Sample.two_halls)
             Hg2). }
  split; [ split; [ exact Hd1 | ] | split; [ exact Hd2 | ] ].
  - exact (proj2 (empty_location_id_is_absent Sample.py_str _ Sample.two_halls)
             Hd1).
  - exact (proj2 (empty_location_id_is_absent Sample.py_str _ Sample.two_halls)
             Hd2).
Defined.

(* ================================================================== *)
(** ** Edit *)
(* ================================================================== *)

Lemma merge_updates_get :
  forall keys b old k,
    Dict.get k (merge_updates keys b old)
    = if existsb (String.eqb k) keys && Dict.mem k b then Dict.get k b
      else Dict.get k old.
Proof.
  induction keys as [ | key keys IH ]; intros b old k; simpl; [ reflexivity | ].
  destruct (Dict.get key b) as [v | ] eqn:Hkey; rewrite IH.
  - destruct (String.eqb k key) eqn:E; simpl.
    + apply String.eqb_eq in E. subst key.
      rewrite (dict_mem_true _ _ _ Hkey), andb_true_r, dict_get_set_same.
      destruct (existsb (String.eqb k) keys); congruence.
    + apply String.eqb_neq in E. rewrite (dict_get_set_other _ _ _ _ E).
      reflexivity.
  - destruct (String.eqb k key) eqn:E; simpl; [ | reflexivity ].
    apply String.eqb_eq in E. subst key.
    rewrite (dict_mem_false _ _ Hkey), !andb_false_r. reflexivity.
Qed.

#[local] Arguments merge_updates : simpl never.

Lemma updated_any_field_false :
  forall b,
    (forall k, In k updatable_keys -> Dict.get k b = None) ->
    Dict.get "location_id" b = None.
Proof. intros b H. apply H. left. reflexivity. Qed.

(** C6, as stated, fails on the error it names: a body whose only key is
    not updatable is answered 400 because ["location_id"] is missing, not
    with the "no updatable fields" error. *)
Lemma edit_unrecognized_key_error_is_missing_id :
  let b := [("description", JStr "new")] in
  let out := Sample.edit (Sample.post (JObj b)) Sample.location_schema
               Sample.one_hall in
  (forall k, In k updatable_keys -> Dict.get k b = None)
  /\ out = (mkResponse 400
              (error_body
                 "Missing 'location_id' field to identify the document to edit."),
            Sample.one_hall)
  /\ body (fst out)
     <> error_body "No updatable fields specified in request body.".
Proof.
  cbv zeta. split; [ | split ].
  - intros k Hk. simpl in Hk.
    destruct Hk as [<- | [<- | [<- | [<- | []]]]]; reflexivity.
  - reflexivity.
  - vm_compute. discriminate.
Qed.

(** C6 (amended): for every Edit request whose body is a JSON object
    holding none of the keys [location_id], [location_name], [events_ids],
    [rooms], [edit_location] returns 400 and leaves the store as it is; the
    error is the one for a missing [location_id] (for the empty object, the
    one for an invalid body). *)
Theorem edit_without_updatable_keys :
  forall (jsonschema_validate : json -> json -> validation)
         (py_str : json -> string) req location_schema w b,
    json_body req = Some (JObj b) ->
    (forall k, In k updatable_keys -> Dict.get k b = None) ->
    edit_location jsonschema_validate py_str req location_schema w
    = (mkResponse 400
         (error_body
            (if is_nil b then "Request body must be a valid JSON object."
             else "Missing 'location_id' field to identify the document to edit.")),
       w).
Proof.
  intros validate py_str req schema w b Hb Hnone.
  pose proof (updated_any_field_false b Hnone) as Hid.
  unfold edit_location, try_except, edit_location_try, bind, get_json, lift.
  rewrite Hb. destruct b as [ | kv b ]; [ reflexivity | ].
  cbn. unfold Py.get. rewrite Hid. reflexivity.
Qed.

Lemma edit_without_updatable_keys_witness :
  let b := [("description", JStr "new"); ("capacity", JNum 3)] in
  json_body (Sample.post (JObj b)) = Some (JObj b)
  /\ (forall k, In k updatable_keys -> Dict.get k b = None)
  /\ Sample.edit (Sample.post (JObj b)) Sample.location_schema Sample.two_halls
     = (mkResponse 400
          (error_body
             "Missing 'location_id' field to identify the document to edit."),
        Sample.two_halls).
Proof.
  cbv zeta.
  assert (Hnone : forall k, In k updatable_keys ->
                    Dict.get k [("description", JStr "new"); ("capacity", JNum 3)]
                    = None).
  { intros k Hk. simpl in Hk.
    destruct Hk as [<- | [<- | [<- | [<- | []]]]]; reflexivity. }
  split; [ reflexivity | ]. split; [ exact Hnone | ].
  exact (edit_without_updatable_keys Sample.jsonschema_validate Sample.py_str
           (Sample.post (JObj [("description", JStr "new"); ("capacity", JNum 3)]))
           Sample.location_schema Sample.two_halls _ eq_refl Hnone).
Defined.

Lemma merge_updates_keeps_id :
  forall b old, Dict.get "id" (merge_updates updatable_keys b old)
                = Dict.get "id" old.
Proof. intros b old. rewrite merge_updates_get. reflexivity. Qed.

Lemma merge_updates_location_id :
  forall b old lid,
    Dict.get "location_id" b = Some lid ->
    Dict.get "location_id" (merge_updates updatable_keys b old) = Some lid.
Proof.
  intros b old lid H. rewrite merge_updates_get.
  rewrite (dict_mem_true _ _ _ H). exact H.
Qed.

(** A truthy [body.get("location_id")] is the value the body binds. *)
Lemma py_get_truthy :
  forall b k v,
    Py.get (JObj b) k = Ok v -> Json.truthy v = true -> Dict.get k b = Some v.
Proof.
  intros b k v. unfold Py.get.
  destruct (Dict.get k b) as [x | ]; intros H Ht.
  - congruence.
  - injection H as <-. discriminate.
Qed.

(** The answer "No updatable fields specified in request body." is never
    given: the merge is reached only with a [location_id] in the body, which
    is itself one of the updatable keys. *)
Lemma edit_never_answers_no_updatable_fields :
  forall (jsonschema_validate : json -> json -> validation)
         (py_str : json -> string) req location_schema w,
    body (fst (edit_location jsonschema_validate py_str req location_schema w))
    <> error_body "No updatable fields specified in request body.".
Proof.
  intros validate py_str req schema w.
  unfold edit_location, try_except, edit_location_try, bind, get_json, lift.
  destruct (json_body req) as [decoded | ]; cbn; [ | discriminate ].
  destruct decoded as [ | ? | ? | ? | ? | [ | kv b0 ] ]; cbn;
    try discriminate.
  remember (kv :: b0) as b eqn:Eb.
  destruct (Py.get (JObj b) "location_id") as [lid | e] eqn:Hget; cbn;
    [ | discriminate ].
  destruct (Json.truthy lid) eqn:Ht; cbn; [ | discriminate ].
  rewrite (dict_mem_true _ _ _ (py_get_truthy _ _ _ Hget Ht)).
  destruct (Store.select "location_id" lid (docs w)) as [ | old rest ]; cbn.
  - unfold error_body, String.append. discriminate.
  - destruct (validate _ schema); cbn; try discriminate.
    destruct (Store.replace_item _ _ w) as [[[] | e] w1]; cbn; discriminate.
Qed.



(* ================================================================== *)
(** ** Mutating calls *)
(* ================================================================== *)

Create HintDb quiet.

Lemma quiet_ret : forall A (a : A), quiet (ret a).
Proof. intros A a w. split; reflexivity. Qed.

Lemma quiet_raise : forall A e, quiet (@raise A e).
Proof. intros A e w. split; reflexivity. Qed.

Lemma quiet_lift : forall A (r : result A), quiet (lift r).
Proof. intros A r w. split; reflexivity. Qed.

Lemma quiet_get_json : forall req, quiet (get_json req).
Proof.
  intros req w. unfold get_json.
  destruct (json_body req); split; reflexivity.
Qed.

Lemma quiet_new_uuid : forall uuid4, quiet (new_uuid uuid4).
Proof. intros uuid4 w. split; reflexivity. Qed.

Lemma quiet_query_where : forall f v, quiet (Store.query_items_where f v).
Proof. intros f v w. split; reflexivity. Qed.

Lemma quiet_query_all : quiet Store.query_items_all.
Proof. intros w. split; reflexivity. Qed.

Lemma quiet_bind :
  forall A B (m : M A) (k : A -> M B),
    quiet m -> (forall a, quiet (k a)) -> quiet (bind m k).
Proof.
  intros A B m k Hm Hk w. unfold bind.
  destruct (Hm w) as [Hd Hc].
  destruct (m w) as [[a | e] w1]; simpl in *.
  - destruct (Hk a w1) as [Hd' Hc']. split; congruence.
  - split; assumption.
Qed.

#[local] Hint Resolve quiet_ret quiet_raise quiet_lift quiet_get_json
  quiet_new_uuid quiet_query_where quiet_query_all : quiet.

Ltac quiet_steps :=
  repeat match goal with
    | |- quiet (bind _ _) => apply quiet_bind; [ | intro ]
    | |- quiet (if ?c then _ else _) => destruct c
    | |- quiet (match ?x with _ => _ end) => destruct x
    | |- quiet _ => solve [ auto with quiet ]
    end.

Lemma quiet_assign_room_ids :
  forall uuid4 items, quiet (assign_room_ids uuid4 items).
Proof.
  intros uuid4 items. induction items as [ | room items IH ]; simpl.
  - auto with quiet.
  - quiet_steps.
Qed.

#[local] Hint Resolve quiet_assign_room_ids : quiet.

Lemma quiet_set_room_ids :
  forall uuid4 rooms, quiet (set_room_ids uuid4 rooms).
Proof. intros uuid4 rooms. unfold set_room_ids. quiet_steps. Qed.

#[local] Hint Resolve quiet_set_room_ids : quiet.

Lemma single_write_quiet :
  forall ok (m : M response), quiet m -> single_write ok m.
Proof. intros ok m H w. left. exact (H w). Qed.

Lemma single_write_bind :
  forall ok A (m : M A) (k : A -> M response),
    quiet m -> (forall a, single_write ok (k a)) -> single_write ok (bind m k).
Proof.
  intros ok A m k Hm Hk w. unfold bind.
  destruct (Hm w) as [Hd Hc].
  destruct (m w) as [[a | e] w1]; simpl in *.
  - rewrite <- Hd, <- Hc. apply Hk.
  - left. split; assumption.
Qed.

Lemma logged_create_item : forall doc, logged_call (Store.create_item doc).
Proof.
  intros doc w. unfold Store.create_item.
  destruct (Dict.get "id" doc) as [i | ]; [ | simpl; eauto ].
  destruct (existsb _ (docs w)); simpl; eauto.
Qed.

Lemma logged_delete_item : forall i pk, logged_call (Store.delete_item i pk).
Proof.
  intros i pk w. unfold Store.delete_item.
  destruct (existsb _ (docs w)); simpl; eauto.
Qed.

Lemma logged_replace_item :
  forall item new, logged_call (Store.replace_item item new).
Proof.
  intros item new w. unfold Store.replace_item.
  destruct (Dict.get "id" item) as [i | ]; [ | simpl; eauto ].
  destruct (existsb _ (docs w)); simpl; eauto.
Qed.

Lemma single_write_call :
  forall ok (m : M unit) b,
    logged_call m ->
    single_write ok (bind m (fun _ => ret (mkResponse ok b))).
Proof.
  intros ok m b Hm w. right. unfold bind.
  destruct (Hm w) as [Hc Hd].
  destruct (m w) as [[[] | e] w1]; simpl in *; split; auto.
Qed.

Ltac single_write_steps :=
  repeat match goal with
    | |- single_write _ (bind (Store.create_item _) _) =>
        apply single_write_call, logged_create_item
    | |- single_write _ (bind (Store.delete_item _ _) _) =>
        apply single_write_call, logged_delete_item
    | |- single_write _ (bind (Store.replace_item _ _) _) =>
        apply single_write_call, logged_replace_item
    | |- single_write _ (bind _ _) =>
        apply single_write_bind; [ solve [ quiet_steps ] | intro ]
    | |- single_write _ (if ?c then _ else _) => destruct c
    | |- single_write _ (match ?x with _ => _ end) => destruct x
    | |- single_write _ _ => solve [ apply single_write_quiet; auto with quiet ]
    end.

Lemma writes_at_most_once_try :
  forall ok (m : M response) fallback,
    single_write ok m -> status_code fallback <> ok ->
    writes_at_most_once ok (try_except m fallback).
Proof.
  intros ok m fallback Hm Hfb w. unfold try_except.
  destruct (Hm w) as [[Hd Hc] | [Hc Hr]];
    destruct (m w) as [[r | e] w1]; simpl in *.
  - split; [ left; exact Hc | intros _; exact Hd ].
  - split; [ left; exact Hc | intros _; exact Hd ].
  - split; [ right; exact Hc | intros Hne; contradiction ].
  - split; [ right; exact Hc | intros _; exact Hr ].
Qed.

(** C8: each of the four handlers issues at most one mutating call on the
    container ([create_item], [replace_item] or [delete_item]) per
    invocation, and whenever it answers with a status other than its success
    code (202 for Create, 200 for Delete, Get and Edit) the stored documents
    are exactly those it started with. *)
Theorem handlers_write_at_most_once :
  forall (jsonschema_validate : json -> json -> validation)
         (uuid4 : nat -> string) (py_str : json -> string) req location_schema,
    writes_at_most_once 202
      (create_location jsonschema_validate uuid4 py_str req location_schema)
    /\ writes_at_most_once 200 (delete_location py_str req)
    /\ writes_at_most_once 200 (get_location py_str req)
    /\ writes_at_most_once 200
         (edit_location jsonschema_validate py_str req location_schema).
Proof.
  intros validate uuid4 py_str req schema.
  split; [ | split; [ | split ] ];
    apply writes_at_most_once_try; try discriminate.
  - unfold create_location_try. single_write_steps.
  - unfold delete_location_try. single_write_steps.
  - unfold get_location_try. single_write_steps.
  - unfold edit_location_try. single_write_steps.
Qed.

(* ================================================================== *)
(** ** Create: rejections *)
(* ================================================================== *)

Lemma contains_container :
  forall k room, Json.is_container room = true ->
                 exists c, Py.contains k room = Ok c.
Proof.
  intros k [ | ? | ? | s | xs | d ]; simpl; try discriminate; eauto.
Qed.

Lemma room_lacks_field_total :
  forall items,
    forallb Json.is_container items = true ->
    exists lacking, room_lacks_field items = Ok lacking.
Proof.
  induction items as [ | room items IH ]; simpl; intros H; [ eauto | ].
  apply andb_true_iff in H. destruct H as [Hroom Hitems].
  destruct (contains_container "room_name" room Hroom) as [c1 ->].
  destruct (contains_container "capacity" room Hroom) as [c2 ->].
  simpl. destruct c1; simpl; [ | eauto ].
  destruct c2; simpl; [ | eauto ]. exact (IH Hitems).
Qed.

Lemma room_lacks_field_complete :
  forall items,
    forallb room_complete items = true -> room_lacks_field items = Ok false.
Proof.
  induction items as [ | room items IH ]; simpl; intros H; [ reflexivity | ].
  apply andb_true_iff in H. destruct H as [Hroom Hitems].
  destruct room as [ | ? | ? | ? | ? | d ]; try discriminate.
  simpl in Hroom. apply andb_true_iff in Hroom. destruct Hroom as [H1 H2].
  cbn. rewrite H1. cbn. rewrite H2. cbn. exact (IH Hitems).
Qed.

(** C1, as stated, fails when ["rooms"] cannot be looped over: the name
    is taken, but the room check raises first and the answer is 500. *)
Lemma create_duplicate_name_rooms_not_iterable :
  let b := [("location_name", JStr "Hall A"); ("rooms", JNum 5)] in
  let out := Sample.create (Sample.post (JObj b)) Sample.location_schema
               Sample.one_hall in
  Dict.get "location_name" b = Some (JStr "Hall A")
  /\ Dict.get "location_name" Sample.hall_a = Some (JStr "Hall A")
  /\ In Sample.hall_a (docs Sample.one_hall)
  /\ out = (mkResponse 500 (error_body "Internal Server Error"),
            Sample.one_hall)
  /\ status_code (fst out) <> 400%Z.
Proof.
  cbv zeta. split; [ reflexivity | ]. split; [ reflexivity | ].
  split; [ left; reflexivity | ].
  split; [ reflexivity | ]. vm_compute. discriminate.
Qed.

(** C1 (amended): for every store state and every Create request whose
    body is an object with the [location_name] of some stored document, and
    whose [rooms], if present, can be looped over with a membership test on
    each item (any array of objects can), [create_location] returns 400 with
    an error string, whatever the other fields are, and issues no call that
    creates, replaces or deletes: the store and the call log are as
    before. *)
Theorem create_duplicate_name_rejected :
  forall (jsonschema_validate : json -> json -> validation)
         (uuid4 : nat -> string) (py_str : json -> string)
         req location_schema w b name d,
    json_body req = Some (JObj b) ->
    Dict.get "location_name" b = Some name ->
    rooms_checkable b = true ->
    In d (docs w) ->
    Dict.get "location_name" d = Some name ->
    exists msg,
      create_location jsonschema_validate uuid4 py_str req location_schema w
      = (mkResponse 400 (error_body msg), w).
Proof.
  intros validate uuid4 py_str req schema w b name d Hb Hname Hrooms Hin Hd.
  unfold create_location, try_except, create_location_try, bind, get_json, lift.
  rewrite Hb. cbn.
  rewrite (dict_mem_true _ _ _ Hname).
  unfold rooms_checkable in Hrooms.
  destruct (Dict.get "rooms" b) as [rooms | ] eqn:Hr.
  - rewrite (dict_mem_true _ _ _ Hr). cbn.
    destruct (Py.iter rooms) as [items | ] eqn:Hiter; [ | discriminate ].
    destruct (room_lacks_field_total items Hrooms) as [lacking ->].
    destruct lacking; cbn; [ eauto | ].
    rewrite Hname. cbn.
    destruct (select_hit "location_name" name (docs w) d Hin Hd)
      as (d' & rest & ->).
    cbn. eauto.
  - rewrite (dict_mem_false _ _ Hr). cbn. eauto.
Qed.

Lemma create_duplicate_name_rejected_witness :
  let b := [("location_name", JStr "Hall A");
            ("events_ids", JArr [JStr "ev-1"]);
            ("rooms", JArr [Sample.room "Main" 120])] in
  json_body (Sample.post (JObj b)) = Some (JObj b)
  /\ Dict.get "location_name" b = Some (JStr "Hall A")
  /\ rooms_checkable b = true
  /\ In Sample.hall_a (docs Sample.two_halls)
  /\ Dict.get "location_name" Sample.hall_a = Some (JStr "Hall A")
  /\ exists msg,
       Sample.create (Sample.post (JObj b)) Sample.location_schema
         Sample.two_halls
       = (mkResponse 400 (error_body msg), Sample.two_halls).
Proof.
  cbv zeta.
  assert (Hin : In Sample.hall_a (docs Sample.two_halls))
    by (left; reflexivity).
  repeat (split; [ first [ exact Hin | reflexivity ] | ]).
  exact (create_duplicate_name_rejected Sample.jsonschema_validate
           Sample.uuid4 Sample.py_str
           (Sample.post (JObj [("location_name", JStr "Hall A");
                               ("events_ids", JArr [JStr "ev-1"]);
                               ("rooms", JArr [Sample.room "Main" 120])]))
           Sample.location_schema Sample.two_halls _ (JStr "Hall A")
           Sample.hall_a eq_refl eq_refl eq_refl Hin eq_refl).
Defined.

Lemma room_lacks_capacity :
  forall items,
    forallb has_room_name items = true ->
    existsb lacks_capacity items = true ->
    room_lacks_field items = Ok true.
Proof.
  induction items as [ | room items IH ]; simpl; intros Hall Hex;
    [ discriminate | ].
  apply andb_true_iff in Hall. destruct Hall as [Hroom Hitems].
  destruct room as [ | ? | ? | ? | ? | d ]; try discriminate.
  simpl in Hroom, Hex. cbn. rewrite Hroom. cbn.
  destruct (Dict.mem "capacity" d); cbn; [ | reflexivity ].
  apply IH; assumption.
Qed.

(** Whenever every room names itself and one has no capacity, the answer
    is 400 and its message is the fixed text about ['room_name']. *)
Lemma create_room_without_capacity :
  forall (jsonschema_validate : json -> json -> validation)
         (uuid4 : nat -> string) (py_str : json -> string)
         req location_schema w b name rooms,
    json_body req = Some (JObj b) ->
    Dict.get "location_name" b = Some name ->
    Dict.get "rooms" b = Some (JArr rooms) ->
    forallb has_room_name rooms = true ->
    existsb lacks_capacity rooms = true ->
    create_location jsonschema_validate uuid4 py_str req location_schema w
    = (mkResponse 400
         (error_body "Missing mandatory field 'room_name' in rooms."), w).
Proof.
  intros validate uuid4 py_str req schema w b name rooms Hb Hname Hr Hall Hex.
  unfold create_location, try_except, create_location_try, bind, get_json, lift.
  rewrite Hb. cbn.
  rewrite (dict_mem_true _ _ _ Hname), (dict_mem_true _ _ _ Hr). cbn.
  rewrite Hr. cbn. rewrite (room_lacks_capacity rooms Hall Hex). reflexivity.
Qed.

(** C3 fails on the code: a room that has its [room_name] and lacks
    [capacity] is answered 400, but the message names ['room_name'], the
    field that is present, and does not mention [capacity]. *)
Theorem create_room_missing_capacity_names_room_name :
  let room := JObj [("room_name", JStr "R1")] in
  let b := [("location_name", JStr "Hall A");
            ("events_ids", JArr []);
            ("rooms", JArr [room])] in
  let msg := "Missing mandatory field 'room_name' in rooms." in
  Py.contains "room_name" room = Ok true
  /\ Py.contains "capacity" room = Ok false
  /\ Sample.create (Sample.post (JObj b)) Sample.location_schema
       Sample.empty_world
     = (mkResponse 400 (error_body msg), Sample.empty_world)
  /\ Py.is_substring "capacity" msg = false
  /\ Py.is_substring "room_name" msg = true.
Proof.
  cbv zeta. split; [ reflexivity | ]. split; [ reflexivity | ].
  split; [ | split; reflexivity ].
  apply create_room_without_capacity
    with (b := [("location_name", JStr "Hall A");
                ("events_ids", JArr []);
                ("rooms", JArr [JObj [("room_name", JStr "R1")]])])
         (name := JStr "Hall A")
         (rooms := [JObj [("room_name", JStr "R1")]]);
    reflexivity.
Qed.

(* ================================================================== *)
(** ** Create: the document *)
(* ================================================================== *)

(** The checks of steps 1 to 3, on a body that passes them. *)
Ltac pass_checks Hb Hname Hrooms Hiter Hlack Hsel Hvalid :=
  unfold create_location, try_except, create_location_try, bind, get_json, lift;
  rewrite Hb; cbn;
  rewrite (dict_mem_true _ _ _ Hname), (dict_mem_true _ _ _ Hrooms); cbn;
  rewrite Hrooms, Hname; cbn; try rewrite Hiter; cbn; rewrite Hlack; cbn;
  rewrite Hsel; cbn; rewrite Hvalid; cbn.

(** C9: the mandatory-field check asks for [location_name] and [rooms]
    only, while the new document reads [body["events_ids"]]
    unconditionally.  So every Create request without [events_ids] that
    passes the room check, the uniqueness check and schema validation is
    answered 500 (hence never a 400 naming [events_ids]), no mutating call
    is issued and no document is stored. *)
Theorem create_without_events_ids_500 :
  forall (jsonschema_validate : json -> json -> validation)
         (uuid4 : nat -> string) (py_str : json -> string)
         req location_schema w b name rooms items,
    json_body req = Some (JObj b) ->
    Dict.get "location_name" b = Some name ->
    Dict.get "rooms" b = Some rooms ->
    Dict.get "events_ids" b = None ->
    Py.iter rooms = Ok items ->
    room_lacks_field items = Ok false ->
    Store.select "location_name" name (docs w) = [] ->
    jsonschema_validate (JObj b) location_schema = Valid ->
    let out :=
      create_location jsonschema_validate uuid4 py_str req location_schema w in
    fst out = mkResponse 500 (error_body "Internal Server Error")
    /\ docs (snd out) = docs w
    /\ calls (snd out) = calls w.
Proof.
  intros validate uuid4 py_str req schema w b name rooms items
    Hb Hname Hrooms Hev Hiter Hlack Hsel Hvalid. cbv zeta.
  pass_checks Hb Hname Hrooms Hiter Hlack Hsel Hvalid.
  match goal with
  | |- context [ set_room_ids uuid4 rooms ?w1 ] =>
      destruct (quiet_set_room_ids uuid4 rooms w1) as [Hd Hc];
      destruct (set_room_ids uuid4 rooms w1) as [[rooms' | e] w2]
  end; cbn in *.
  - assert (Hne : "events_ids" <> "rooms") by discriminate.
    assert (Hne' : "location_name" <> "rooms") by discriminate.
    rewrite (dict_get_set_other _ _ _ _ Hne'), Hname. cbn.
    rewrite (dict_get_set_other _ _ _ _ Hne), Hev. cbn.
    repeat split; assumption.
  - repeat split; assumption.
Qed.

Lemma create_without_events_ids_500_witness :
  let b := [("location_name", JStr "Hall C");
            ("rooms", JArr [Sample.room "R1" 50])] in
  let req := Sample.post (JObj b) in
  let out := Sample.create req Sample.location_schema Sample.one_hall in
  json_body req = Some (JObj b)
  /\ Dict.get "location_name" b = Some (JStr "Hall C")
  /\ Dict.get "rooms" b = Some (JArr [Sample.room "R1" 50])
  /\ Dict.get "events_ids" b = None
  /\ Py.iter (JArr [Sample.room "R1" 50]) = Ok [Sample.room "R1" 50]
  /\ room_lacks_field [Sample.room "R1" 50] = Ok false
  /\ Store.select "location_name" (JStr "Hall C") (docs Sample.one_hall) = []
  /\ Sample.jsonschema_validate (JObj b) Sample.location_schema = Valid
  /\ fst out = mkResponse 500 (error_body "Internal Server Error")
  /\ docs (snd out) = docs Sample.one_hall
  /\ calls (snd out) = calls Sample.one_hall.
Proof.
  cbv zeta.
  do 8 (split; [ reflexivity | ]).
  exact (create_without_events_ids_500 Sample.jsonschema_validate Sample.uuid4
           Sample.py_str
           (Sample.post (JObj [("location_name", JStr "Hall C");
                               ("rooms", JArr [Sample.room "R1" 50])]))
           Sample.location_schema Sample.one_hall _ (JStr "Hall C")
           (JArr [Sample.room "R1" 50]) [Sample.room "R1" 50]
           eq_refl eq_refl eq_refl eq_refl eq_refl eq_refl eq_refl eq_refl).
Defined.

Lemma room_complete_is_object :
  forall items,
    forallb room_complete items = true -> forallb Json.is_object items = true.
Proof.
  induction items as [ | room items IH ]; simpl; intros H; [ reflexivity | ].
  apply andb_true_iff in H. destruct H as [Hroom Hitems].
  rewrite (IH Hitems), andb_true_r.
  destruct room; try discriminate. reflexivity.
Qed.

Lemma assign_room_ids_objects :
  forall uuid4 items w,
    forallb Json.is_object items = true ->
    assign_room_ids uuid4 items w
    = (Ok (with_room_ids uuid4 (uuid_count w) items),
       mkWorld (docs w) (calls w) (uuid_count w + length items)).
Proof.
  intros uuid4. induction items as [ | room items IH ]; intros w H; simpl.
  - unfold ret. rewrite Nat.add_0_r. destruct w; reflexivity.
  - simpl in H. apply andb_true_iff in H. destruct H as [Hroom Hitems].
    destruct room as [ | ? | ? | ? | ? | d ]; try discriminate.
    unfold bind, new_uuid, lift; cbn. rewrite (IH _ Hitems). cbn.
    rewrite Nat.add_succ_r. reflexivity.
Qed.

Lemma with_room_ids_read :
  forall uuid4 items n,
    forallb Json.is_object items = true ->
    map room_id_of (with_room_ids uuid4 n items)
    = map (fun r => Some (JStr r)) (map uuid4 (seq n (length items))).
Proof.
  intros uuid4. induction items as [ | room items IH ]; intros n H; simpl;
    [ reflexivity | ].
  simpl in H. apply andb_true_iff in H. destruct H as [Hroom Hitems].
  destruct room as [ | ? | ? | ? | ? | d ]; try discriminate.
  simpl. rewrite dict_get_set_same, (IH _ Hitems). reflexivity.
Qed.

Lemma all_distinct_NoDup : forall l, all_distinct l = true -> NoDup l.
Proof.
  induction l as [ | x l IH ]; simpl; intros H; [ constructor | ].
  apply andb_true_iff in H. destruct H as [Hx Hl].
  constructor; [ | exact (IH Hl) ].
  intros Hin. apply negb_true_iff in Hx.
  assert (Hex : existsb (String.eqb x) l = true).
  { apply existsb_exists. exists x. split; [ exact Hin | apply String.eqb_refl ]. }
  congruence.
Qed.

Lemma NoDup_room_ids :
  forall l, NoDup l -> NoDup (map (fun r => Some (JStr r)) l).
Proof.
  intros l H. induction H as [ | x l Hx Hl IH ]; simpl; constructor.
  - intros Hin. apply in_map_iff in Hin. destruct Hin as (y & [= ->] & Hy).
    contradiction.
  - exact IH.
Qed.

Lemma add_schema_fields_keeps :
  forall location_schema properties,
    Py.getitem location_schema "properties" = Ok properties ->
    Json.is_container properties = true ->
    forall items new_doc,
    exists new_doc',
      add_schema_fields items location_schema new_doc = Ok new_doc'
      /\ forall k v, Dict.get k new_doc = Some v -> Dict.get k new_doc' = Some v.
Proof.
  intros schema props Hprops Hcont.
  induction items as [ | [key val] items IH ]; intros new_doc; simpl.
  - eauto.
  - destruct (Dict.mem key new_doc) eqn:Hmem; [ apply IH | ].
    rewrite Hprops. cbn.
    destruct (contains_container key props Hcont) as [declared ->]. cbn.
    destruct declared; [ | apply IH ].
    destruct (IH (Dict.set key val new_doc)) as (new_doc' & Hadd & Hkeep).
    exists new_doc'. split; [ exact Hadd | ].
    intros k v Hk. apply Hkeep.
    rewrite dict_get_set_other; [ exact Hk | ].
    intros ->. rewrite (dict_mem_true _ _ _ Hk) in Hmem. discriminate.
Qed.

Lemma no_item_in_partition :
  forall i pk ds,
    Store.select "location_id" pk ds = [] ->
    existsb (Store.is_item i (Some pk)) ds = false.
Proof.
  intros i pk ds Hsel.
  destruct (existsb (Store.is_item i (Some pk)) ds) eqn:E; [ | reflexivity ].
  apply existsb_exists in E. destruct E as (x & Hin & Hx).
  rewrite (pre_free_of_select i pk ds Hsel x Hin) in Hx. discriminate.
Qed.

Lemma select_snoc :
  forall f v ds d,
    Store.select f v ds = [] -> Dict.get f d = Some v ->
    Store.select f v (ds ++ [d]) = [d].
Proof.
  intros f v ds d Hsel Hd. unfold Store.select in *.
  rewrite filter_app, Hsel. simpl.
  apply field_is_get in Hd. rewrite Hd. reflexivity.
Qed.

(** C2, as stated, fails on a request without [events_ids]: it passes
    the mandatory-field check, the room check, the uniqueness check and
    schema validation, and is answered 500 with nothing stored. *)
Lemma create_valid_without_events_ids_not_202 :
  let rooms := [Sample.room "R1" 50] in
  let b := [("location_name", JStr "Hall A"); ("rooms", JArr rooms)] in
  let out := Sample.create (Sample.post (JObj b)) Sample.location_schema
               Sample.empty_world in
  missing_fields required_fields (JObj b) = Ok []
  /\ forallb room_complete rooms = true
  /\ Store.select "location_name" (JStr "Hall A") (docs Sample.empty_world) = []
  /\ Sample.jsonschema_validate (JObj b) Sample.location_schema = Valid
  /\ status_code (fst out) = 500%Z
  /\ status_code (fst out) <> 202%Z
  /\ docs (snd out) = [].
Proof.
  cbv zeta. do 5 (split; [ reflexivity | ]).
  split; [ vm_compute; discriminate | reflexivity ].
Qed.

(** C2 (amended): for every Create request whose body is an object with
    [location_name], [events_ids] and [rooms], where [rooms] is an array of
    objects that each hold [room_name] and [capacity], no stored document
    has that [location_name], schema validation succeeds and the schema has
    a [properties] table, and where the generated identifiers are fresh (the
    location's is carried by no stored document, the rooms' are pairwise
    distinct), [create_location] returns 202 with the generated
    [location_id]; afterwards exactly one stored document carries that
    [location_id], and every room in it has its own generated [room_id],
    distinct from the others'. *)
Theorem create_valid_request_stored :
  forall (jsonschema_validate : json -> json -> validation)
         (uuid4 : nat -> string) (py_str : json -> string)
         req location_schema w b name events rooms properties,
    json_body req = Some (JObj b) ->
    Dict.get "location_name" b = Some name ->
    Dict.get "events_ids" b = Some events ->
    Dict.get "rooms" b = Some (JArr rooms) ->
    forallb room_complete rooms = true ->
    Store.select "location_name" name (docs w) = [] ->
    jsonschema_validate (JObj b) location_schema = Valid ->
    Py.getitem location_schema "properties" = Ok properties ->
    Json.is_container properties = true ->
    Store.select "location_id" (JStr (uuid4 (uuid_count w))) (docs w) = [] ->
    all_distinct (room_uuids uuid4 w (length rooms)) = true ->
    created w name events (uuid4 (uuid_count w))
      (room_uuids uuid4 w (length rooms))
      (create_location jsonschema_validate uuid4 py_str req location_schema w).
Proof.
  intros validate uuid4 py_str req schema w b name events rooms props
    Hb Hname Hev Hrooms Hcomplete Hsel Hvalid Hprops Hcont Hfresh Hdistinct.
  pose proof (room_complete_is_object rooms Hcomplete) as Hobj.
  assert (Hne : "events_ids" <> "rooms") by discriminate.
  assert (Hne' : "location_name" <> "rooms") by discriminate.
  unfold created.
  pass_checks Hb Hname Hrooms (eq_refl (Py.iter (JArr rooms)))
    (room_lacks_field_complete rooms Hcomplete) Hsel Hvalid.
  unfold bind. rewrite (assign_room_ids_objects uuid4 rooms _ Hobj). cbn.
  rewrite (dict_get_set_other _ _ _ _ Hne'), Hname. cbn.
  rewrite (dict_get_set_other _ _ _ _ Hne), Hev. cbn.
  match goal with
  | |- context [ add_schema_fields ?items schema ?new_doc ] =>
      destruct (add_schema_fields_keeps schema props Hprops Hcont items new_doc)
        as (doc & -> & Hkeep);
      pose proof (Hkeep "id" _ eq_refl) as Hid;
      pose proof (Hkeep "location_id" _ eq_refl) as Hlid;
      pose proof (Hkeep "location_name" _ eq_refl) as Hdname;
      pose proof (Hkeep "events_ids" _ eq_refl) as Hdev;
      pose proof (Hkeep "rooms" _ eq_refl) as Hdrooms
  end.
  cbn. unfold Store.create_item. rewrite Hid, Hlid. cbn.
  rewrite (no_item_in_partition _ _ _ Hfresh). cbn.
  split; [ reflexivity | ].
  exists doc, (with_room_ids uuid4 (S (uuid_count w)) rooms).
  split; [ reflexivity | ]. split; [ reflexivity | ].
  split; [ apply select_snoc; assumption | ].
  split; [ exact Hdname | ]. split; [ exact Hdev | ].
  split; [ exact Hdrooms | ].
  rewrite (with_room_ids_read uuid4 rooms _ Hobj).
  split; [ reflexivity | ].
  apply NoDup_room_ids, all_distinct_NoDup. exact Hdistinct.
Qed.

Lemma create_valid_request_stored_witness :
  let rooms := [Sample.room "R1" 50; Sample.room "R2" 12] in
  let b := [("location_name", JStr "Hall C");
            ("description", JStr "North wing");
            ("events_ids", JArr []);
            ("rooms", JArr rooms);
            ("owner", JStr "someone")] in
  let req := Sample.post (JObj b) in
  json_body req = Some (JObj b)
  /\ Dict.get "location_name" b = Some (JStr "Hall C")
  /\ Dict.get "events_ids" b = Some (JArr [])
  /\ Dict.get "rooms" b = Some (JArr rooms)
  /\ forallb room_complete rooms = true
  /\ Store.select "location_name" (JStr "Hall C") (docs Sample.two_halls) = []
  /\ Sample.jsonschema_validate (JObj b) Sample.location_schema = Valid
  /\ Json.is_container
       (JObj [("location_id", JObj []); ("location_name", JObj []);
              ("events_ids", JObj []); ("rooms", JObj []);
              ("description", JObj [])]) = true
  /\ Store.select "location_id" (JStr (Sample.uuid4 0)) (docs Sample.two_halls)
     = []
  /\ all_distinct (room_uuids Sample.uuid4 Sample.two_halls 2) = true
  /\ created Sample.two_halls (JStr "Hall C") (JArr []) "id-0"
       ["id-1"; "id-2"]
       (Sample.create req Sample.location_schema Sample.two_halls).
Proof.
  cbv zeta. do 10 (split; [ reflexivity | ]).
  exact (create_valid_request_stored Sample.jsonschema_validate Sample.uuid4
           Sample.py_str
           (Sample.post
              (JObj [("location_name", JStr "Hall C");
                     ("description", JStr "North wing");
                     ("events_ids", JArr []);
                     ("rooms", JArr [Sample.room "R1" 50; Sample.room "R2" 12]);
                     ("owner", JStr "someone")]))
           Sample.location_schema Sample.two_halls _ (JStr "Hall C") (JArr [])
           [Sample.room "R1" 50; Sample.room "R2" 12] _
           eq_refl eq_refl eq_refl eq_refl eq_refl eq_refl eq_refl eq_refl
           eq_refl eq_refl eq_refl).
Defined.

(* ================================================================== *)
(** * Further properties of the handlers *)
(* ================================================================== *)

(** ** Status codes *)

Lemma answers_ret :
  forall codes r, In (status_code r) codes -> answers codes (ret r).
Proof. intros codes r H w. exact H. Qed.

Lemma answers_raise : forall codes e, answers codes (raise e).
Proof. intros codes e w. exact I. Qed.

Lemma answers_bind :
  forall codes A (m : M A) (k : A -> M response),
    (forall a, answers codes (k a)) -> answers codes (bind m k).
Proof.
  intros codes A m k Hk w. unfold bind.
  destruct (m w) as [[a | e] w1]; [ apply Hk | exact I ].
Qed.

Lemma answers_try :
  forall codes (m : M response) fallback w,
    answers codes m -> In (status_code fallback) codes ->
    In (status_code (fst (try_except m fallback w))) codes.
Proof.
  intros codes m fallback w Hm Hfb. unfold try_except.
  pose proof (Hm w) as H.
  destruct (m w) as [[r | e] w1]; [ exact H | exact Hfb ].
Qed.

Ltac answers_steps :=
  repeat match goal with
    | |- answers _ (bind _ _) => apply answers_bind; intro
    | |- answers _ (ret _) => apply answers_ret; simpl; tauto
    | |- answers _ (raise _) => apply answers_raise
    | |- answers _ (if ?c then _ else _) => destruct c
    | |- answers _ (match ?x with _ => _ end) => destruct x
    end.

(** The handlers answer with these status codes and no other:
    [create_location] 202, 400 or 500; [delete_location] and
    [edit_location] 200, 400, 404 or 500; [get_location] 200, 404 or 500.
    In particular Create never answers 404 and Get never answers 400. *)
Theorem handlers_status_codes :
  forall (jsonschema_validate : json -> json -> validation)
         (uuid4 : nat -> string) (py_str : json -> string)
         req location_schema w,
    In (status_code
          (fst (create_location jsonschema_validate uuid4 py_str req
                  location_schema w)))
       [202; 400; 500]%Z
    /\ In (status_code (fst (delete_location py_str req w)))
         [200; 400; 404; 500]%Z
    /\ In (status_code (fst (get_location py_str req w))) [200; 404; 500]%Z
    /\ In (status_code
             (fst (edit_location jsonschema_validate py_str req
                     location_schema w)))
         [200; 400; 404; 500]%Z.
Proof.
  intros validate uuid4 py_str req schema w.
  split; [ | split; [ | split ] ];
    (apply answers_try; [ | simpl; tauto ]).
  - unfold create_location_try. answers_steps.
  - unfold delete_location_try. answers_steps.
  - unfold get_location_try. answers_steps.
  - unfold edit_location_try. answers_steps.
Qed.

(** ** Reads do not write *)

(** [get_location] is read-only: whatever the request and the answer, the
    stored documents, the log of mutating calls and the identifier
    generator are as they were. *)
Theorem get_location_read_only :
  forall (py_str : json -> string) req w,
    snd (get_location py_str req w) = w.
Proof.
  intros py_str req w.
  unfold get_location, try_except, get_location_try, bind, get_json, lift.
  destruct (String.eqb (method req) "GET"); cbn.
  - destruct (Json.truthy _); cbn; [ | reflexivity ].
    destruct (Store.select _ _ _); reflexivity.
  - destruct (json_body req) as [decoded | ]; cbn; [ | reflexivity ].
    destruct (Py.get _ _) as [lid | e]; cbn; [ | reflexivity ].
    destruct (Json.truthy lid); cbn; [ | reflexivity ].
    destruct (Store.select _ _ _); reflexivity.
Qed.

(** ** A body that cannot be decoded *)

(** When [req.get_json()] raises, every handler that reads the body answers
    500 with the generic message and leaves the world as it is: Create and
    Edit always, Delete on a POST, Get on anything but a GET.  Get spells
    the message "Internal server error", the others "Internal Server
    Error". *)
Theorem undecodable_body_500 :
  forall (jsonschema_validate : json -> json -> validation)
         (uuid4 : nat -> string) (py_str : json -> string)
         req location_schema w,
    json_body req = None ->
    create_location jsonschema_validate uuid4 py_str req location_schema w
    = (mkResponse 500 (error_body "Internal Server Error"), w)
    /\ edit_location jsonschema_validate py_str req location_schema w
       = (mkResponse 500 (error_body "Internal Server Error"), w)
    /\ (method req = "POST" ->
        delete_location py_str req w
        = (mkResponse 500 (error_body "Internal Server Error"), w))
    /\ (method req <> "GET" ->
        get_location py_str req w
        = (mkResponse 500 (error_body "Internal server error"), w)).
Proof.
  intros validate uuid4 py_str req schema w Hb.
  split; [ | split; [ | split ] ].
  - unfold create_location, try_except, create_location_try, bind, get_json.
    rewrite Hb. reflexivity.
  - unfold edit_location, try_except, edit_location_try, bind, get_json.
    rewrite Hb. reflexivity.
  - intros Hm.
    unfold delete_location, try_except, delete_location_try, bind, get_json.
    rewrite Hm, Hb. reflexivity.
  - intros Hm. apply String.eqb_neq in Hm.
    unfold get_location, try_except, get_location_try, bind, get_json.
    rewrite Hm, Hb. reflexivity.
Qed.

Lemma undecodable_body_500_witness :
  let req := mkRequest "POST" [] None in
  json_body req = None
  /\ Sample.create req Sample.location_schema Sample.two_halls
     = (mkResponse 500 (error_body "Internal Server Error"), Sample.two_halls)
  /\ Sample.edit req Sample.location_schema Sample.two_halls
     = (mkResponse 500 (error_body "Internal Server Error"), Sample.two_halls)
  /\ Sample.delete req Sample.two_halls
     = (mkResponse 500 (error_body "Internal Server Error"), Sample.two_halls)
  /\ Sample.get req Sample.two_halls
     = (mkResponse 500 (error_body "Internal server error"), Sample.two_halls).
Proof.
  cbv zeta. split; [ reflexivity | ].
  destruct (undecodable_body_500 Sample.jsonschema_validate Sample.uuid4
              Sample.py_str (mkRequest "POST" [] None) Sample.location_schema
              Sample.two_halls eq_refl) as (Hc & He & Hd & Hg).
  split; [ exact Hc | ]. split; [ exact He | ].
  split; [ exact (Hd eq_refl) | ].
  apply Hg. discriminate.
Defined.

(* ================================================================== *)
(** ** Edit: outcomes *)
(* ================================================================== *)

(** Either [edit_location] answers something else than 200 and the
    documents are untouched, or it has replaced the first document that
    carries the body's (truthy) [location_id] by the merged one. *)
Lemma edit_location_outcome :
  forall (jsonschema_validate : json -> json -> validation)
         (py_str : json -> string) req location_schema w,
    let out := edit_location jsonschema_validate py_str req location_schema w in
    (status_code (fst out) <> 200%Z /\ docs (snd out) = docs w)
    \/ exists b lid old pre post i,
         json_body req = Some (JObj b)
         /\ Dict.get "location_id" b = Some lid
         /\ Json.truthy lid = true
         /\ docs w = (pre ++ old :: post)%list
         /\ Store.select "location_id" lid pre = []
         /\ Dict.get "location_id" old = Some lid
         /\ Dict.get "id" old = Some i
         /\ jsonschema_validate (JObj (merge_updates updatable_keys b old))
              location_schema = Valid
         /\ out
            = (mkResponse 200
                 (JObj [("message",
                         JStr ("Location '" ++ py_str lid
                               ++ "' updated successfully."));
                        ("location",
                         JObj (merge_updates updatable_keys b old))]),
               mkWorld (pre ++ merge_updates updatable_keys b old :: post)
                 (calls w ++ [ReplaceItem (merge_updates updatable_keys b old)
                                (merge_updates updatable_keys b old)])
                 (uuid_count w)).
Proof.
  intros validate py_str req schema w. cbv zeta.
  unfold edit_location, try_except, edit_location_try, bind, get_json, lift.
  destruct (json_body req) as [decoded | ] eqn:Hb; cbn;
    [ | left; split; [ discriminate | reflexivity ] ].
  destruct decoded as [ | ? | ? | ? | ? | [ | kv b0 ] ]; cbn;
    try (left; split; [ discriminate | reflexivity ]).
  remember (kv :: b0) as b eqn:Eb.
  destruct (Py.get (JObj b) "location_id") as [lid | e] eqn:Hget; cbn;
    [ | left; split; [ discriminate | reflexivity ] ].
  destruct (Json.truthy lid) eqn:Ht; cbn;
    [ | left; split; [ discriminate | reflexivity ] ].
  pose proof (py_get_truthy _ _ _ Hget Ht) as Hlid.
  destruct (Store.select "location_id" lid (docs w)) as [ | old rest ] eqn:Hsel;
    cbn; [ left; split; [ discriminate | reflexivity ] | ].
  destruct (select_split _ _ _ _ _ Hsel) as (pre & post & Hw & Hpre & _ & Hold).
  rewrite (dict_mem_true _ _ _ Hlid). cbn.
  set (new := merge_updates updatable_keys b old).
  destruct (validate (JObj new) schema) eqn:Hvalid; cbn;
    try (left; split; [ discriminate | reflexivity ]).
  unfold Store.replace_item.
  pose proof (merge_updates_keeps_id b old) as Hid. fold new in Hid.
  pose proof (merge_updates_location_id b old lid Hlid) as Hnl. fold new in Hnl.
  rewrite Hnl.
  destruct (Dict.get "id" new) as [i | ] eqn:Hi; cbn;
    [ | left; split; [ discriminate | reflexivity ] ].
  assert (Hfree : forall x, In x pre -> Store.is_item (Some i) (Some lid) x = false)
    by (apply pre_free_of_select; exact Hpre).
  assert (Hhit : Store.is_item (Some i) (Some lid) old = true)
    by (apply is_item_self; congruence).
  rewrite Hw, (existsb_first _ pre post old Hhit),
    (replace_first_split _ pre post old Hfree Hhit).
  cbn. right. exists b, lid, old, pre, post, i.
  rewrite <- Hw.
  repeat (split; [ first [ assumption | reflexivity | congruence ] | ]).
  reflexivity.
Qed.

(** [edit_location] never creates or removes a document and never changes
    the internal id or the [location_id] of one: whatever the request and
    the answer, the stored documents carry, in order, the ids and the
    location ids they carried before. *)
Theorem edit_location_keeps_identities :
  forall (jsonschema_validate : json -> json -> validation)
         (py_str : json -> string) req location_schema w,
    let w' :=
      snd (edit_location jsonschema_validate py_str req location_schema w) in
    map (Dict.get "id") (docs w') = map (Dict.get "id") (docs w)
    /\ map (Dict.get "location_id") (docs w')
       = map (Dict.get "location_id") (docs w)
    /\ length (docs w') = length (docs w).
Proof.
  intros validate py_str req schema w. cbv zeta.
  destruct (edit_location_outcome validate py_str req schema w)
    as [[_ Hd] | (b & lid & old & pre & post & i & _ & Hlid & _ & Hw & _
                  & Hold & Hid & _ & Hout)].
  - rewrite Hd. repeat split; reflexivity.
  - rewrite Hout, Hw. cbn [snd docs].
    rewrite !map_app, !length_app. cbn [map length].
    rewrite merge_updates_keeps_id, (merge_updates_location_id b old lid Hlid), Hold.
    repeat split; reflexivity.
Qed.

(** A body that is not a non-empty JSON object (an array, a string, a
    number, [null], the empty object) is answered 400 "Request body must be
    a valid JSON object."; a non-empty object whose [location_id] is absent
    or falsy ([null], empty, zero, [false]) is answered 400 "Missing
    'location_id' ...", whatever else it holds.  The world is unchanged. *)
Theorem edit_body_must_identify :
  forall (jsonschema_validate : json -> json -> validation)
         (py_str : json -> string) req location_schema w v,
    json_body req = Some v ->
    (Json.truthy v && Json.is_object v = false ->
     edit_location jsonschema_validate py_str req location_schema w
     = (mkResponse 400
          (error_body "Request body must be a valid JSON object."), w))
    /\ (forall lid,
          Json.truthy v && Json.is_object v = true ->
          Py.get v "location_id" = Ok lid ->
          Json.truthy lid = false ->
          edit_location jsonschema_validate py_str req location_schema w
          = (mkResponse 400
               (error_body
                  "Missing 'location_id' field to identify the document to edit."),
             w)).
Proof.
  intros validate py_str req schema w v Hb.
  unfold edit_location, try_except, edit_location_try, bind, get_json, lift.
  rewrite Hb. cbn. split.
  - intros Hv. destruct v as [ | ? | ? | ? | ? | [ | kv b0 ] ];
      try reflexivity. discriminate.
  - intros lid Hv Hget Ht.
    destruct v as [ | ? | ? | ? | ? | [ | kv b0 ] ]; try discriminate;
      try (simpl in Hv; rewrite andb_false_r in Hv; discriminate).
    cbn. rewrite Hget. cbn. rewrite Ht. reflexivity.
Qed.

Lemma edit_body_must_identify_witness :
  (json_body (Sample.post (JArr [JStr "location_id"]))
   = Some (JArr [JStr "location_id"])
   /\ Sample.edit (Sample.post (JArr [JStr "location_id"]))
        Sample.location_schema Sample.two_halls
      = (mkResponse 400
           (error_body "Request body must be a valid JSON object."),
         Sample.two_halls))
  /\ (let v := JObj [("location_id", JNum 0);
                     ("location_name", JStr "Hall Z")] in
      json_body (Sample.post v) = Some v
      /\ Sample.edit (Sample.post v) Sample.location_schema Sample.two_halls
         = (mkResponse 400
              (error_body
                 "Missing 'location_id' field to identify the document to edit."),
            Sample.two_halls)).
Proof.
  split; cbv zeta.
  - split; [ reflexivity | ].
    exact (proj1 (edit_body_must_identify Sample.jsonschema_validate
                    Sample.py_str (Sample.post (JArr [JStr "location_id"]))
                    Sample.location_schema Sample.two_halls _ eq_refl)
             eq_refl).
  - split; [ reflexivity | ].
    exact (proj2 (edit_body_must_identify Sample.jsonschema_validate
                    Sample.py_str
                    (Sample.post (JObj [("location_id", JNum 0);
                                        ("location_name", JStr "Hall Z")]))
                    Sample.location_schema Sample.two_halls _ eq_refl)
             (JNum 0) eq_refl eq_refl eq_refl).
Defined.

(** With a truthy [location_id] in the body: when no stored document
    carries it the answer is 404; when one does and the merged document
    (the stored one overwritten by the body) fails schema validation the
    answer is 400 with the validator's message.  Validation is of the merged
    document, so it can fail on a field the request did not send.  In both
    cases the world is unchanged: the merge is not persisted. *)
Theorem edit_rejections_leave_world :
  forall (jsonschema_validate : json -> json -> validation)
         (py_str : json -> string) req location_schema w b lid,
    json_body req = Some (JObj b) ->
    Dict.get "location_id" b = Some lid ->
    Json.truthy lid = true ->
    (Store.select "location_id" lid (docs w) = [] ->
     edit_location jsonschema_validate py_str req location_schema w
     = (mkResponse 404
          (error_body ("Location '" ++ py_str lid ++ "' not found, cannot edit.")),
        w))
    /\ (forall old rest msg,
          Store.select "location_id" lid (docs w) = old :: rest ->
          jsonschema_validate (JObj (merge_updates updatable_keys b old))
            location_schema = ValidationError msg ->
          edit_location jsonschema_validate py_str req location_schema w
          = (mkResponse 400
               (error_body ("JSON schema validation error: " ++ msg)), w)).
Proof.
  intros validate py_str req schema w b lid Hb Hlid Ht.
  assert (Hget : Py.get (JObj b) "location_id" = Ok lid)
    by (unfold Py.get; rewrite Hlid; reflexivity).
  unfold edit_location, try_except, edit_location_try, bind, get_json, lift.
  rewrite Hb. cbn.
  destruct b as [ | kv b0 ]; [ discriminate | ].
  remember (kv :: b0) as b eqn:Eb. cbn. rewrite Hget. cbn. rewrite Ht. cbn.
  split.
  - intros ->. reflexivity.
  - intros old rest msg -> Hv. cbn.
    rewrite (dict_mem_true _ _ _ Hlid). cbn. rewrite Hv. reflexivity.
Qed.

Lemma edit_rejections_leave_world_witness :
  let w := mkWorld [Sample.hall_a; shed] [] 0 in
  (let b := [("location_id", JStr "loc-9"); ("events_ids", JArr [])] in
   json_body (Sample.post (JObj b)) = Some (JObj b)
   /\ Dict.get "location_id" b = Some (JStr "loc-9")
   /\ Json.truthy (JStr "loc-9") = true
   /\ Store.select "location_id" (JStr "loc-9") (docs w) = []
   /\ Sample.edit (Sample.post (JObj b)) Sample.location_schema w
      = (mkResponse 404
           (error_body "Location 'loc-9' not found, cannot edit."), w))
  /\ (let b := [("location_id", JStr "loc-3"); ("events_ids", JArr [])] in
      json_body (Sample.post (JObj b)) = Some (JObj b)
      /\ Dict.get "location_id" b = Some (JStr "loc-3")
      /\ Json.truthy (JStr "loc-3") = true
      /\ Store.select "location_id" (JStr "loc-3") (docs w) = [shed]
      /\ Sample.jsonschema_validate
           (JObj (merge_updates updatable_keys b shed)) Sample.location_schema
         = ValidationError "'rooms' is a required property"
      /\ Sample.edit (Sample.post (JObj b)) Sample.location_schema w
         = (mkResponse 400
              (error_body
                 "JSON schema validation error: 'rooms' is a required property"),
            w)).
Proof.
  cbv zeta. split.
  - do 4 (split; [ reflexivity | ]).
    exact (proj1 (edit_rejections_leave_world Sample.jsonschema_validate
                    Sample.py_str
                    (Sample.post (JObj [("location_id", JStr "loc-9");
                                        ("events_ids", JArr [])]))
                    Sample.location_schema
                    (mkWorld [Sample.hall_a; shed] [] 0) _ (JStr "loc-9")
                    eq_refl eq_refl eq_refl) eq_refl).
  - do 5 (split; [ reflexivity | ]).
    exact (proj2 (edit_rejections_leave_world Sample.jsonschema_validate
                    Sample.py_str
                    (Sample.post (JObj [("location_id", JStr "loc-3");
                                        ("events_ids", JArr [])]))
                    Sample.location_schema
                    (mkWorld [Sample.hall_a; shed] [] 0) _ (JStr "loc-3")
                    eq_refl eq_refl eq_refl)
             shed [] "'rooms' is a required property" eq_refl eq_refl).
Defined.

(** The path of [edit_location] that persists. *)
Lemma edit_location_success :
  forall (jsonschema_validate : json -> json -> validation)
         (py_str : json -> string) req location_schema w b lid old pre post i,
    json_body req = Some (JObj b) ->
    Dict.get "location_id" b = Some lid ->
    Json.truthy lid = true ->
    docs w = (pre ++ old :: post)%list ->
    Store.select "location_id" lid pre = [] ->
    Dict.get "location_id" old = Some lid ->
    Dict.get "id" old = Some i ->
    jsonschema_validate (JObj (merge_updates updatable_keys b old))
      location_schema = Valid ->
    edit_location jsonschema_validate py_str req location_schema w
    = (mkResponse 200
         (JObj [("message",
                 JStr ("Location '" ++ py_str lid ++ "' updated successfully."));
                ("location", JObj (merge_updates updatable_keys b old))]),
       mkWorld (pre ++ merge_updates updatable_keys b old :: post)
         (calls w ++ [ReplaceItem (merge_updates updatable_keys b old)
                        (merge_updates updatable_keys b old)])
         (uuid_count w)).
Proof.
  intros validate py_str req schema w b lid old pre post i
    Hb Hlid Ht Hw Hpre Hold Hid Hvalid.
  assert (Hget : Py.get (JObj b) "location_id" = Ok lid)
    by (unfold Py.get; rewrite Hlid; reflexivity).
  assert (Hsel : Store.select "location_id" lid (docs w)
                 = old :: Store.select "location_id" lid post).
  { rewrite Hw. unfold Store.select in *. rewrite filter_app, Hpre. simpl.
    rewrite (proj2 (field_is_get _ _ _) Hold). reflexivity. }
  unfold edit_location, try_except, edit_location_try, bind, get_json, lift.
  rewrite Hb. cbn.
  destruct b as [ | kv b0 ]; [ discriminate | ].
  remember (kv :: b0) as b eqn:Eb. cbn. rewrite Hget. cbn. rewrite Ht. cbn.
  rewrite Hsel. cbn. rewrite (dict_mem_true _ _ _ Hlid). cbn.
  rewrite Hvalid. cbn. unfold Store.replace_item.
  rewrite merge_updates_keeps_id, Hid,
    (merge_updates_location_id b old lid Hlid).
  assert (Hfree : forall x, In x pre -> Store.is_item (Some i) (Some lid) x = false)
    by (apply pre_free_of_select; exact Hpre).
  assert (Hhit : Store.is_item (Some i) (Some lid) old = true)
    by (apply is_item_self; assumption).
  rewrite Hw, (existsb_first _ pre post old Hhit),
    (replace_first_split _ pre post old Hfree Hhit).
  reflexivity.
Qed.

Lemma dict_set_same_value :
  forall k v d, Dict.get k d = Some v -> Dict.set k v d = d.
Proof.
  intros k v d. induction d as [ | [k' v'] d IH ]; unfold Dict.get, Dict.set;
    fold Dict.get; fold Dict.set.
  - discriminate.
  - destruct (String.eqb k k'); intros H.
    + congruence.
    + rewrite (IH H). reflexivity.
Qed.

Lemma merge_updates_fixed :
  forall keys b d,
    (forall k v, In k keys -> Dict.get k b = Some v -> Dict.get k d = Some v) ->
    merge_updates keys b d = d.
Proof.
  induction keys as [ | key keys IH ]; intros b d H;
    unfold merge_updates; fold merge_updates; [ reflexivity | ].
  destruct (Dict.get key b) as [v | ] eqn:Hkey.
  - rewrite (dict_set_same_value key v d (H key v (or_introl eq_refl) Hkey)).
    apply IH. intros k v' Hin. apply H. right. exact Hin.
  - apply IH. intros k v' Hin. apply H. right. exact Hin.
Qed.

Lemma merge_updates_idempotent :
  forall keys b d,
    merge_updates keys b (merge_updates keys b d) = merge_updates keys b d.
Proof.
  intros keys b d. apply merge_updates_fixed. intros k v Hin Hb.
  rewrite merge_updates_get, (dict_mem_true _ _ _ Hb), andb_true_r.
  assert (Hex : existsb (String.eqb k) keys = true).
  { apply existsb_exists. exists k. split; [ exact Hin | apply String.eqb_refl ]. }
  rewrite Hex. exact Hb.
Qed.

(** After a successful edit, a [get_location] for the same [location_id]
    answers 200 with exactly the document the edit returned under
    [location]. *)
Theorem edit_then_get :
  forall (jsonschema_validate : json -> json -> validation)
         (py_str : json -> string) req location_schema w resp w' lookup lid,
    edit_location jsonschema_validate py_str req location_schema w
    = (resp, w') ->
    status_code resp = 200%Z ->
    in_body req lid ->
    get_reads lookup lid ->
    exists new,
      Py.getitem (body resp) "location" = Ok (JObj new)
      /\ get_location py_str lookup w'
         = (mkResponse 200 (JObj [("location", JObj new)]), w').
Proof.
  intros validate py_str req schema w resp w' lookup lid Hrun Hstatus
    (b0 & Hb0 & Hget) Hreads.
  destruct (edit_location_outcome validate py_str req schema w)
    as [[Hne _] | (b & lid' & old & pre & post & i & Hb & Hlid & Ht & Hw & Hpre
                   & Hold & Hid & Hvalid & Hout)].
  - rewrite Hrun in Hne. contradiction.
  - rewrite Hrun in Hout. injection Hout as -> ->.
    assert (b0 = b) by congruence. subst b0.
    assert (lid = lid').
    { unfold Py.get in Hget. rewrite Hlid in Hget. congruence. }
    subst lid'.
    exists (merge_updates updatable_keys b old). split; [ reflexivity | ].
    rewrite (get_location_reads py_str lookup lid _ Hreads), Ht. cbn [docs].
    unfold Store.select in *. rewrite filter_app, Hpre. simpl.
    rewrite (proj2 (field_is_get _ _ _)
               (merge_updates_location_id b old lid Hlid)).
    reflexivity.
Qed.

Lemma edit_then_get_witness :
  let req := Sample.post (JObj [("location_id", JStr "loc-2");
                                ("location_name", JStr "Hall B2")]) in
  let new := [("id", JStr "doc-2");
              ("location_id", JStr "loc-2");
              ("location_name", JStr "Hall B2");
              ("events_ids", JArr [JStr "ev-7"]);
              ("rooms", JArr [])] in
  let w' := mkWorld [Sample.hall_a; new] [ReplaceItem new new] 0 in
  let lookup := Sample.get_with [("location_id", "loc-2")] in
  status_code (fst (Sample.edit req Sample.location_schema Sample.two_halls))
  = 200%Z
  /\ in_body req (JStr "loc-2")
  /\ get_reads lookup (JStr "loc-2")
  /\ exists doc,
       Py.getitem
         (body (fst (Sample.edit req Sample.location_schema Sample.two_halls)))
         "location" = Ok (JObj doc)
       /\ Sample.get lookup w'
          = (mkResponse 200 (JObj [("location", JObj doc)]), w').
Proof.
  cbv zeta. split; [ reflexivity | ].
  assert (Hin : in_body (Sample.post (JObj [("location_id", JStr "loc-2");
                                            ("location_name", JStr "Hall B2")]))
                  (JStr "loc-2"))
    by (eexists; split; reflexivity).
  assert (Hr : get_reads (Sample.get_with [("location_id", "loc-2")])
                 (JStr "loc-2"))
    by (left; split; reflexivity).
  split; [ exact Hin | ]. split; [ exact Hr | ].
  refine (edit_then_get Sample.jsonschema_validate Sample.py_str
            (Sample.post (JObj [("location_id", JStr "loc-2");
                                ("location_name", JStr "Hall B2")]))
            Sample.location_schema Sample.two_halls
            (fst (Sample.edit
                    (Sample.post (JObj [("location_id", JStr "loc-2");
                                        ("location_name", JStr "Hall B2")]))
                    Sample.location_schema Sample.two_halls))
            _ _ (JStr "loc-2") _ _ Hin Hr);
    reflexivity.
Defined.

(** A successful edit can be repeated: the same request, run again right
    after, gets the same answer and leaves the same documents; it only
    issues its [replace_item] call once more. *)
Theorem edit_is_idempotent :
  forall (jsonschema_validate : json -> json -> validation)
         (py_str : json -> string) req location_schema w resp w',
    edit_location jsonschema_validate py_str req location_schema w
    = (resp, w') ->
    status_code resp = 200%Z ->
    exists new,
      Py.getitem (body resp) "location" = Ok (JObj new)
      /\ edit_location jsonschema_validate py_str req location_schema w'
         = (resp,
            mkWorld (docs w') (calls w' ++ [ReplaceItem new new])
              (uuid_count w')).
Proof.
  intros validate py_str req schema w resp w' Hrun Hstatus.
  destruct (edit_location_outcome validate py_str req schema w)
    as [[Hne _] | (b & lid & old & pre & post & i & Hb & Hlid & Ht & Hw & Hpre
                   & Hold & Hid & Hvalid & Hout)].
  - rewrite Hrun in Hne. contradiction.
  - rewrite Hrun in Hout. injection Hout as -> ->.
    set (new := merge_updates updatable_keys b old) in *.
    exists new. split; [ reflexivity | ].
    assert (Hnl : Dict.get "location_id" new = Some lid)
      by (apply merge_updates_location_id; exact Hlid).
    assert (Hnid : Dict.get "id" new = Some i)
      by (unfold new; rewrite merge_updates_keeps_id; exact Hid).
    assert (Hagain : merge_updates updatable_keys b new = new)
      by apply merge_updates_idempotent.
    assert (Hv : validate (JObj (merge_updates updatable_keys b new)) schema
                 = Valid)
      by (rewrite Hagain; exact Hvalid).
    pose proof (edit_location_success validate py_str req schema
                  (mkWorld (pre ++ new :: post)
                     (calls w ++ [ReplaceItem new new]) (uuid_count w))
                  b lid new pre post i Hb Hlid Ht eq_refl Hpre Hnl Hnid Hv)
      as H2.
    rewrite Hagain in H2. exact H2.
Qed.

Lemma edit_is_idempotent_witness :
  let req := Sample.post (JObj [("location_id", JStr "loc-2");
                                ("rooms", JArr [Sample.room "Attic" 4])]) in
  let out := Sample.edit req Sample.location_schema Sample.two_halls in
  out = (fst out, snd out)
  /\ status_code (fst out) = 200%Z
  /\ exists new,
       Py.getitem (body (fst out)) "location" = Ok (JObj new)
       /\ Sample.edit req Sample.location_schema (snd out)
          = (fst out,
             mkWorld (docs (snd out)) (calls (snd out) ++ [ReplaceItem new new])
               (uuid_count (snd out))).
Proof.
  cbv zeta. split; [ reflexivity | ]. split; [ reflexivity | ].
  refine (edit_is_idempotent Sample.jsonschema_validate Sample.py_str
            (Sample.post (JObj [("location_id", JStr "loc-2");
                                ("rooms", JArr [Sample.room "Attic" 4])]))
            Sample.location_schema Sample.two_halls
            (fst (Sample.edit
                    (Sample.post (JObj [("location_id", JStr "loc-2");
                                        ("rooms", JArr [Sample.room "Attic" 4])]))
                    Sample.location_schema Sample.two_halls))
            (snd (Sample.edit
                    (Sample.post (JObj [("location_id", JStr "loc-2");
                                        ("rooms", JArr [Sample.room "Attic" 4])]))
                    Sample.location_schema Sample.two_halls))
            _ _);
    reflexivity.
Defined.

(** Unlike Create, Edit makes no uniqueness check: renaming a location to
    the [location_name] of another stored location is accepted (given that
    the merged document validates), and afterwards two stored documents
    with different location ids carry that name. *)
Theorem edit_does_not_check_name :
  forall (jsonschema_validate : json -> json -> validation)
         (py_str : json -> string)
         req location_schema w b lid name old rest i other,
    json_body req = Some (JObj b) ->
    Dict.get "location_id" b = Some lid ->
    Json.truthy lid = true ->
    Dict.get "location_name" b = Some name ->
    Store.select "location_id" lid (docs w) = old :: rest ->
    Dict.get "id" old = Some i ->
    jsonschema_validate (JObj (merge_updates updatable_keys b old))
      location_schema = Valid ->
    In other (docs w) ->
    Dict.get "location_name" other = Some name ->
    Dict.get "location_id" other <> Some lid ->
    let out := edit_location jsonschema_validate py_str req location_schema w in
    status_code (fst out) = 200%Z
    /\ In other (docs (snd out))
    /\ exists new,
         In new (docs (snd out))
         /\ Dict.get "location_id" new = Some lid
         /\ Dict.get "location_name" new = Some name.
Proof.
  intros validate py_str req schema w b lid name old rest i other
    Hb Hlid Ht Hname Hsel Hid Hvalid Hin Hoth Hneq. cbv zeta.
  destruct (select_split _ _ _ _ _ Hsel) as (pre & post & Hw & Hpre & _ & Hold).
  rewrite (edit_location_success validate py_str req schema w b lid old pre
             post i Hb Hlid Ht Hw Hpre Hold Hid Hvalid).
  cbn [fst snd status_code docs]. split; [ reflexivity | ]. split.
  - rewrite Hw in Hin. apply in_app_or in Hin. apply in_or_app.
    destruct Hin as [Hin | [-> | Hin]]; [ left; exact Hin | | right; right; exact Hin ].
    contradiction.
  - exists (merge_updates updatable_keys b old). split; [ | split ].
    + apply in_or_app. right. left. reflexivity.
    + apply merge_updates_location_id. exact Hlid.
    + rewrite merge_updates_get, (dict_mem_true _ _ _ Hname). exact Hname.
Qed.

Lemma edit_does_not_check_name_witness :
  let b := [("location_id", JStr "loc-2"); ("location_name", JStr "Hall A")] in
  let out := Sample.edit (Sample.post (JObj b)) Sample.location_schema
               Sample.two_halls in
  Store.select "location_id" (JStr "loc-2") (docs Sample.two_halls)
  = [Sample.hall_b]
  /\ Sample.jsonschema_validate
       (JObj (merge_updates updatable_keys b Sample.hall_b))
       Sample.location_schema = Valid
  /\ In Sample.hall_a (docs Sample.two_halls)
  /\ Dict.get "location_name" Sample.hall_a = Some (JStr "Hall A")
  /\ Dict.get "location_id" Sample.hall_a <> Some (JStr "loc-2")
  /\ status_code (fst out) = 200%Z
  /\ In Sample.hall_a (docs (snd out))
  /\ exists new,
       In new (docs (snd out))
       /\ Dict.get "location_id" new = Some (JStr "loc-2")
       /\ Dict.get "location_name" new = Some (JStr "Hall A").
Proof.
  cbv zeta.
  assert (Hin : In Sample.hall_a (docs Sample.two_halls)) by (left; reflexivity).
  assert (Hneq : Dict.get "location_id" Sample.hall_a <> Some (JStr "loc-2"))
    by (vm_compute; discriminate).
  split; [ reflexivity | ]. split; [ reflexivity | ]. split; [ exact Hin | ].
  split; [ reflexivity | ]. split; [ exact Hneq | ].
  exact (edit_does_not_check_name Sample.jsonschema_validate Sample.py_str
           (Sample.post (JObj [("location_id", JStr "loc-2");
                               ("location_name", JStr "Hall A")]))
           Sample.location_schema Sample.two_halls _ (JStr "loc-2")
           (JStr "Hall A") Sample.hall_b [] (JStr "doc-2") Sample.hall_a
           eq_refl eq_refl eq_refl eq_refl eq_refl eq_refl eq_refl
           Hin eq_refl Hneq).
Defined.

(* ================================================================== *)
(** ** Create: outcomes *)
(* ================================================================== *)

#[local] Arguments missing_fields : simpl never.
#[local] Arguments room_lacks_field : simpl never.
#[local] Arguments add_schema_fields : simpl never.
#[local] Arguments set_room_ids : simpl never.
#[local] Arguments Py.getitem : simpl never.
#[local] Arguments Py.iter : simpl never.

Lemma missing_fields_object :
  forall b,
    missing_fields required_fields (JObj b)
    = Ok (filter (fun f => negb (Dict.mem f b)) required_fields).
Proof.
  intros b. unfold missing_fields, required_fields. simpl.
  destruct (Dict.mem "location_name" b), (Dict.mem "rooms" b); reflexivity.
Qed.

Lemma getitem_inv :
  forall c k v,
    Py.getitem c k = Ok v -> exists b, c = JObj b /\ Dict.get k b = Some v.
Proof.
  intros c k v. unfold Py.getitem.
  destruct c as [ | ? | ? | ? | ? | b ]; try discriminate.
  destruct (Dict.get k b) as [x | ] eqn:E; [ | discriminate ].
  intros [= <-]. eauto.
Qed.

Lemma getitem_object :
  forall b k v, Dict.get k b = Some v -> Py.getitem (JObj b) k = Ok v.
Proof. intros b k v H. unfold Py.getitem. rewrite H. reflexivity. Qed.

(** The room-id loop succeeds only on objects. *)
Lemma assign_room_ids_inv :
  forall uuid4 items w items' w2,
    assign_room_ids uuid4 items w = (Ok items', w2) ->
    forallb Json.is_object items = true.
Proof.
  intros uuid4. induction items as [ | room items IH ]; intros w items' w2;
    simpl; [ reflexivity | ].
  unfold bind, new_uuid, lift. cbn.
  destruct room as [ | ? | ? | ? | ? | d ]; cbn; try discriminate.
  destruct (assign_room_ids uuid4 items _) as [[rest | e] w3] eqn:E; cbn;
    [ | discriminate ].
  intros _. exact (IH _ _ _ E).
Qed.

(** Either [create_location] answers something else than 202 and the
    documents are untouched, or the body passed every check and one
    document, the core document plus the additional fields, was appended. *)
Lemma create_location_outcome :
  forall (jsonschema_validate : json -> json -> validation)
         (uuid4 : nat -> string) (py_str : json -> string)
         req location_schema w,
    let out :=
      create_location jsonschema_validate uuid4 py_str req location_schema w in
    (status_code (fst out) <> 202%Z /\ docs (snd out) = docs w)
    \/ exists b name events rooms items rooms' w2 doc,
         json_body req = Some (JObj b)
         /\ Dict.get "location_name" b = Some name
         /\ Dict.get "events_ids" b = Some events
         /\ Dict.get "rooms" b = Some rooms
         /\ Py.iter rooms = Ok items
         /\ room_lacks_field items = Ok false
         /\ Store.select "location_name" name (docs w) = []
         /\ jsonschema_validate (JObj b) location_schema = Valid
         /\ set_room_ids uuid4 rooms
              (mkWorld (docs w) (calls w) (S (uuid_count w)))
            = (Ok rooms', w2)
         /\ add_schema_fields (Dict.set "rooms" rooms' b) location_schema
              (core_doc (uuid4 (uuid_count w2)) (uuid4 (uuid_count w))
                 name events rooms')
            = Ok doc
         /\ out
            = (created_response (uuid4 (uuid_count w)),
               mkWorld (docs w ++ [doc]) (calls w ++ [CreateItem doc])
                 (S (uuid_count w2))).
Proof.
  intros validate uuid4 py_str req schema w. cbv zeta.
  unfold create_location, try_except, create_location_try, bind, get_json, lift.
  destruct (json_body req) as [decoded | ] eqn:Hb; cbn;
    [ | left; split; [ discriminate | reflexivity ] ].
  destruct (missing_fields required_fields decoded) as [missing | e]; cbn;
    [ | left; split; [ discriminate | reflexivity ] ].
  destruct missing; cbn; [ | left; split; [ discriminate | reflexivity ] ].
  destruct (Py.getitem decoded "rooms") as [rooms | e] eqn:Hrooms; cbn;
    [ | left; split; [ discriminate | reflexivity ] ].
  destruct (getitem_inv _ _ _ Hrooms) as (b & -> & Hr).
  destruct (Py.iter rooms) as [items | e] eqn:Hiter; cbn;
    [ | left; split; [ discriminate | reflexivity ] ].
  destruct (room_lacks_field items) as [[ | ] | e] eqn:Hlack; cbn;
    try (left; split; [ discriminate | reflexivity ]).
  destruct (Py.getitem (JObj b) "location_name") as [name | e] eqn:Hname; cbn;
    [ | left; split; [ discriminate | reflexivity ] ].
  destruct (getitem_inv _ _ _ Hname) as (b' & [= <-] & Hn).
  destruct (Store.select "location_name" name (docs w)) eqn:Hsel; cbn;
    [ | left; split; [ discriminate | reflexivity ] ].
  destruct (validate (JObj b) schema) eqn:Hvalid; cbn;
    try (left; split; [ discriminate | reflexivity ]).
  match goal with
  | |- context [ set_room_ids uuid4 rooms ?w1 ] =>
      destruct (quiet_set_room_ids uuid4 rooms w1) as [Hd Hc];
      destruct (set_room_ids uuid4 rooms w1) as [[rooms' | e] w2] eqn:Hset
  end; cbn in Hd, Hc; cbn;
    [ | left; split; [ discriminate | exact Hd ] ].
  assert (Hne : "events_ids" <> "rooms") by discriminate.
  assert (Hne' : "location_name" <> "rooms") by discriminate.
  rewrite (getitem_object _ "location_name" name)
    by (rewrite (dict_get_set_other _ _ _ _ Hne'); exact Hn).
  cbn.
  destruct (Dict.get "events_ids" b) as [events | ] eqn:Hev.
  2:{ unfold Py.getitem. rewrite (dict_get_set_other _ _ _ _ Hne), Hev. cbn.
      left. split; [ discriminate | exact Hd ]. }
  rewrite (getitem_object _ "events_ids" events)
    by (rewrite (dict_get_set_other _ _ _ _ Hne); exact Hev).
  cbn. fold (core_doc (uuid4 (uuid_count w2)) (uuid4 (uuid_count w)) name
               events rooms').
  destruct (add_schema_fields _ schema _) as [doc | e] eqn:Hadd; cbn;
    [ | left; split; [ discriminate | exact Hd ] ].
  unfold Store.create_item.
  destruct (Dict.get "id" doc) as [i | ]; cbn;
    [ | left; split; [ discriminate | exact Hd ] ].
  destruct (existsb _ (docs w2)); cbn;
    [ left; split; [ discriminate | exact Hd ] | ].
  right. exists b, name, events, rooms, items, rooms', w2, doc.
  rewrite Hd, Hc.
  repeat (split; [ first [ assumption | reflexivity ] | ]).
  reflexivity.
Qed.

(** Runs [create_location] on an object body up to the uniqueness query. *)
Ltac enter_create Hb Hname Hrooms Hiter Hlack :=
  unfold create_location, try_except, create_location_try, bind, get_json, lift;
  rewrite Hb; cbn; rewrite missing_fields_object; unfold required_fields;
  cbn [filter];
  rewrite (dict_mem_true _ _ _ Hname), (dict_mem_true _ _ _ Hrooms);
  cbn;
  rewrite !(getitem_object _ _ _ Hrooms), !(getitem_object _ _ _ Hname);
  cbn; rewrite Hiter; cbn; rewrite Hlack; cbn.

(** A body object without [location_name] or without [rooms] is answered
    400, and the message lists exactly the mandatory fields that are
    missing, in the order [location_name], [rooms]; [events_ids] is never
    listed.  Nothing is queried, generated or stored. *)
Theorem create_lists_missing_fields :
  forall (jsonschema_validate : json -> json -> validation)
         (uuid4 : nat -> string) (py_str : json -> string)
         req location_schema w b,
    json_body req = Some (JObj b) ->
    Dict.mem "location_name" b && Dict.mem "rooms" b = false ->
    create_location jsonschema_validate uuid4 py_str req location_schema w
    = (mkResponse 400
         (error_body
            ("Missing mandatory field(s): "
             ++ Py.repr_names
                  (filter (fun f => negb (Dict.mem f b)) required_fields))),
       w).
Proof.
  intros validate uuid4 py_str req schema w b Hb Hmissing.
  unfold create_location, try_except, create_location_try, bind, get_json, lift.
  rewrite Hb. cbn. rewrite missing_fields_object. unfold required_fields.
  cbn [filter].
  destruct (Dict.mem "location_name" b), (Dict.mem "rooms" b);
    try discriminate; reflexivity.
Qed.

Lemma create_lists_missing_fields_witness :
  (let b := [("events_ids", JArr [])] in
   json_body (Sample.post (JObj b)) = Some (JObj b)
   /\ Dict.mem "location_name" b && Dict.mem "rooms" b = false
   /\ Sample.create (Sample.post (JObj b)) Sample.location_schema
        Sample.one_hall
      = (mkResponse 400
           (error_body
              "Missing mandatory field(s): ['location_name', 'rooms']"),
         Sample.one_hall))
  /\ (let b := [("location_name", JStr "Hall A")] in
      json_body (Sample.post (JObj b)) = Some (JObj b)
      /\ Dict.mem "location_name" b && Dict.mem "rooms" b = false
      /\ Sample.create (Sample.post (JObj b)) Sample.location_schema
           Sample.one_hall
         = (mkResponse 400
              (error_body "Missing mandatory field(s): ['rooms']"),
            Sample.one_hall)).
Proof.
  cbv zeta. split; (split; [ reflexivity | ]); (split; [ reflexivity | ]).
  - exact (create_lists_missing_fields Sample.jsonschema_validate Sample.uuid4
             Sample.py_str (Sample.post (JObj [("events_ids", JArr [])]))
             Sample.location_schema Sample.one_hall _ eq_refl eq_refl).
  - exact (create_lists_missing_fields Sample.jsonschema_validate Sample.uuid4
             Sample.py_str
             (Sample.post (JObj [("location_name", JStr "Hall A")]))
             Sample.location_schema Sample.one_hall _ eq_refl eq_refl).
Defined.

Lemma room_lacks_field_incomplete :
  forall items,
    forallb Json.is_object items = true ->
    forallb room_complete items = false ->
    room_lacks_field items = Ok true.
Proof.
  induction items as [ | room items IH ]; simpl; intros Hobj Hinc;
    [ discriminate | ].
  apply andb_true_iff in Hobj. destruct Hobj as [Hroom Hitems].
  destruct room as [ | ? | ? | ? | ? | d ]; try discriminate.
  unfold room_lacks_field; fold room_lacks_field. cbn.
  simpl in Hinc.
  destruct (Dict.mem "room_name" d); cbn; [ | reflexivity ].
  destruct (Dict.mem "capacity" d); cbn; [ | reflexivity ].
  apply IH; assumption.
Qed.

(** When [rooms] is an array of objects and one of them lacks [room_name]
    or [capacity], the answer is 400 with an error message.  The room check
    comes before the uniqueness query and before schema validation, so this
    is the answer whatever the store holds and whatever the schema says;
    nothing is generated or stored. *)
Theorem create_incomplete_room_rejected :
  forall (jsonschema_validate : json -> json -> validation)
         (uuid4 : nat -> string) (py_str : json -> string)
         req location_schema w b name rooms,
    json_body req = Some (JObj b) ->
    Dict.get "location_name" b = Some name ->
    Dict.get "rooms" b = Some (JArr rooms) ->
    forallb Json.is_object rooms = true ->
    forallb room_complete rooms = false ->
    exists msg,
      create_location jsonschema_validate uuid4 py_str req location_schema w
      = (mkResponse 400 (error_body msg), w).
Proof.
  intros validate uuid4 py_str req schema w b name rooms
    Hb Hname Hrooms Hobj Hinc.
  enter_create Hb Hname Hrooms (eq_refl : Py.iter (JArr rooms) = Ok rooms)
    (room_lacks_field_incomplete rooms Hobj Hinc).
  eexists. reflexivity.
Qed.

Lemma create_incomplete_room_rejected_witness :
  let rooms := [Sample.room "R1" 50; JObj [("capacity", JNum 8)]] in
  let b := [("location_name", JStr "Hall A"); ("rooms", JArr rooms)] in
  json_body (Sample.post (JObj b)) = Some (JObj b)
  /\ Dict.get "location_name" b = Some (JStr "Hall A")
  /\ Dict.get "rooms" b = Some (JArr rooms)
  /\ forallb Json.is_object rooms = true
  /\ forallb room_complete rooms = false
  /\ exists msg,
       Sample.create (Sample.post (JObj b)) Sample.location_schema
         Sample.one_hall
       = (mkResponse 400 (error_body msg), Sample.one_hall).
Proof.
  cbv zeta. do 5 (split; [ reflexivity | ]).
  exact (create_incomplete_room_rejected Sample.jsonschema_validate
           Sample.uuid4 Sample.py_str
           (Sample.post
              (JObj [("location_name", JStr "Hall A");
                     ("rooms", JArr [Sample.room "R1" 50;
                                     JObj [("capacity", JNum 8)]])]))
           Sample.location_schema Sample.one_hall _ (JStr "Hall A")
           [Sample.room "R1" 50; JObj [("capacity", JNum 8)]]
           eq_refl eq_refl eq_refl eq_refl eq_refl).
Defined.

(** A body that passes the field, room and uniqueness checks and that
    [jsonschema.validate] refuses is answered 400 with the validator's
    message after "JSON schema validation error: "; a malformed schema is
    answered 500.  What is validated is the body as sent, before any
    identifier exists; in both cases no identifier was generated and nothing
    was stored. *)
Theorem create_schema_rejection :
  forall (jsonschema_validate : json -> json -> validation)
         (uuid4 : nat -> string) (py_str : json -> string)
         req location_schema w b name rooms items,
    json_body req = Some (JObj b) ->
    Dict.get "location_name" b = Some name ->
    Dict.get "rooms" b = Some rooms ->
    Py.iter rooms = Ok items ->
    room_lacks_field items = Ok false ->
    Store.select "location_name" name (docs w) = [] ->
    (forall msg,
       jsonschema_validate (JObj b) location_schema = ValidationError msg ->
       create_location jsonschema_validate uuid4 py_str req location_schema w
       = (mkResponse 400
            (error_body ("JSON schema validation error: " ++ msg)), w))
    /\ (jsonschema_validate (JObj b) location_schema = InvalidSchema ->
        create_location jsonschema_validate uuid4 py_str req location_schema w
        = (mkResponse 500 (error_body "Internal Server Error"), w)).
Proof.
  intros validate uuid4 py_str req schema w b name rooms items
    Hb Hname Hrooms Hiter Hlack Hsel.
  split; [ intros msg Hv | intros Hv ];
    enter_create Hb Hname Hrooms Hiter Hlack;
    rewrite Hsel; cbn; rewrite Hv; reflexivity.
Qed.

Lemma create_schema_rejection_witness :
  let schema := JObj [("required", JArr [JStr "location_name"; JStr "rooms";
                                         JStr "events_ids"])] in
  let b := [("location_name", JStr "Hall C"); ("rooms", JArr [])] in
  json_body (Sample.post (JObj b)) = Some (JObj b)
  /\ Dict.get "location_name" b = Some (JStr "Hall C")
  /\ Dict.get "rooms" b = Some (JArr [])
  /\ Py.iter (JArr []) = Ok []
  /\ room_lacks_field [] = Ok false
  /\ Store.select "location_name" (JStr "Hall C") (docs Sample.two_halls) = []
  /\ Sample.jsonschema_validate (JObj b) schema
     = ValidationError "'events_ids' is a required property"
  /\ Sample.create (Sample.post (JObj b)) schema Sample.two_halls
     = (mkResponse 400
          (error_body
             "JSON schema validation error: 'events_ids' is a required property"),
        Sample.two_halls).
Proof.
  cbv zeta. do 7 (split; [ reflexivity | ]).
  exact (proj1 (create_schema_rejection Sample.jsonschema_validate Sample.uuid4
                  Sample.py_str
                  (Sample.post (JObj [("location_name", JStr "Hall C");
                                      ("rooms", JArr [])]))
                  (JObj [("required", JArr [JStr "location_name"; JStr "rooms";
                                            JStr "events_ids"])])
                  Sample.two_halls _ (JStr "Hall C") (JArr []) []
                  eq_refl eq_refl eq_refl eq_refl eq_refl eq_refl)
           "'events_ids' is a required property" eq_refl).
Defined.

(** *** The additional fields *)

Lemma dict_get_cons :
  forall k k' v d,
    Dict.get k ((k', v) :: d) = if String.eqb k k' then Some v else Dict.get k d.
Proof. reflexivity. Qed.

Lemma dict_mem_get_none :
  forall k d, Dict.mem k d = false -> Dict.get k d = None.
Proof.
  intros k d. unfold Dict.mem. destruct (Dict.get k d); [ discriminate | reflexivity ].
Qed.

Lemma dict_mem_set_other :
  forall k k' v d, k <> k' -> Dict.mem k (Dict.set k' v d) = Dict.mem k d.
Proof.
  intros k k' v d H. unfold Dict.mem. rewrite (dict_get_set_other _ _ _ _ H).
  reflexivity.
Qed.

(** What the loop of step 4.3 leaves in the document: the keys it already
    had keep their values; a key it did not have gets the value of the
    body's item when ["properties"] declares it, and stays absent
    otherwise. *)
Lemma add_schema_fields_spec :
  forall location_schema items new_doc doc,
    add_schema_fields items location_schema new_doc = Ok doc ->
    forall k,
      (Dict.mem k new_doc = true -> Dict.get k doc = Dict.get k new_doc)
      /\ (Dict.mem k new_doc = false -> Dict.get k items = None ->
          Dict.get k doc = None)
      /\ (Dict.mem k new_doc = false ->
          forall v,
            Dict.get k items = Some v ->
            exists properties declared,
              Py.getitem location_schema "properties" = Ok properties
              /\ Py.contains k properties = Ok declared
              /\ Dict.get k doc = if declared then Some v else None).
Proof.
  intros schema. induction items as [ | [key val] items IH ];
    intros nd doc H k; unfold add_schema_fields in H; fold add_schema_fields in H.
  - injection H as <-. split; [ reflexivity | ]. split.
    + intros Hm _. apply dict_mem_get_none. exact Hm.
    + intros _ v Hv. discriminate.
  - rewrite dict_get_cons.
    destruct (Dict.mem key nd) eqn:Hmem.
    + destruct (IH nd doc H k) as (C1 & C2 & C3).
      destruct (String.eqb k key) eqn:E.
      * apply String.eqb_eq in E. subst key.
        split; [ exact C1 | ]. split; intros Hk; congruence.
      * split; [ exact C1 | ]. split; assumption.
    + destruct (Py.getitem schema "properties") as [props | e] eqn:Hprops;
        [ | discriminate ].
      cbn in H.
      destruct (Py.contains key props) as [declared | e] eqn:Hdecl;
        [ | discriminate ].
      cbn in H.
      destruct (String.eqb k key) eqn:E.
      * apply String.eqb_eq in E. subst key.
        split; [ intros Hk; congruence | ].
        split; [ intros _ Hk; discriminate | ].
        intros _ v [= <-]. exists props, declared.
        split; [ reflexivity | ]. split; [ exact Hdecl | ].
        destruct declared.
        -- destruct (IH _ doc H k) as (C1 & _ & _).
           rewrite C1.
           ++ apply dict_get_set_same.
           ++ apply dict_mem_true with (v := val). apply dict_get_set_same.
        -- destruct (IH _ doc H k) as (_ & C2 & C3).
           destruct (Dict.get k items) as [v' | ] eqn:Hrest.
           ++ destruct (C3 Hmem v' eq_refl) as (props' & declared' & Hp & Hd & Hdoc).
              assert (props' = props) by congruence. subst props'.
              assert (declared' = false) by congruence. subst declared'.
              exact Hdoc.
           ++ exact (C2 Hmem eq_refl).
      * apply String.eqb_neq in E.
        assert (Hm2 : Dict.mem k (if declared then Dict.set key val nd else nd)
                      = Dict.mem k nd)
          by (destruct declared; [ apply dict_mem_set_other; exact E | reflexivity ]).
        assert (Hg2 : Dict.get k (if declared then Dict.set key val nd else nd)
                      = Dict.get k nd)
          by (destruct declared; [ apply dict_get_set_other; exact E | reflexivity ]).
        destruct (IH _ doc H k) as (C1 & C2 & C3).
        rewrite Hm2, Hg2 in *. split; [ exact C1 | ]. split; assumption.
Qed.

Lemma core_doc_mem :
  forall doc_id lid name events rooms k,
    Dict.mem k (core_doc doc_id lid name events rooms) = core k.
Proof.
  intros doc_id lid name events rooms k. unfold Dict.mem, core_doc, core, core_keys.
  rewrite !dict_get_cons. simpl.
  destruct (String.eqb k "id"), (String.eqb k "location_id"),
    (String.eqb k "location_name"), (String.eqb k "events_ids"),
    (String.eqb k "rooms"); reflexivity.
Qed.

(** *** What a 202 implies *)

Lemma core_doc_kept :
  forall location_schema items doc_id lid name events rooms doc k v,
    add_schema_fields items location_schema
      (core_doc doc_id lid name events rooms) = Ok doc ->
    Dict.get k (core_doc doc_id lid name events rooms) = Some v ->
    Dict.get k doc = Some v.
Proof.
  intros schema items doc_id lid name events rooms doc k v Hadd Hk.
  destruct (add_schema_fields_spec schema items _ doc Hadd k) as (C1 & _).
  rewrite C1; [ exact Hk | ]. apply dict_mem_true with (v := v). exact Hk.
Qed.

(** [create_location] answers 202 only for a body object that holds
    [location_name], [events_ids] and [rooms], whose name no stored document
    has and which validates; it has then appended exactly one document, with
    one [create_item] call, and that document carries the identifier of the
    response and the name and events of the body. *)
Theorem create_accepted_only_if :
  forall (jsonschema_validate : json -> json -> validation)
         (uuid4 : nat -> string) (py_str : json -> string)
         req location_schema w resp w',
    create_location jsonschema_validate uuid4 py_str req location_schema w
    = (resp, w') ->
    status_code resp = 202%Z ->
    accepted jsonschema_validate uuid4 location_schema req w resp w'.
Proof.
  intros validate uuid4 py_str req schema w resp w' Hrun Hstatus.
  destruct (create_location_outcome validate uuid4 py_str req schema w)
    as [[Hne _] | (b & name & events & rooms & items & rooms' & w2 & doc & Hb
                   & Hname & Hev & Hrooms & _ & _ & Hsel & Hvalid & _ & Hadd
                   & Hout)].
  - rewrite Hrun in Hne. contradiction.
  - rewrite Hrun in Hout. injection Hout as -> ->.
    exists b, name, events, rooms, doc.
    repeat (split; [ first [ assumption | reflexivity ] | ]).
    split; [ | split ];
      apply (core_doc_kept _ _ _ _ _ _ _ _ _ _ Hadd); reflexivity.
Qed.

Lemma create_accepted_only_if_witness :
  let req := Sample.post
               (JObj [("location_name", JStr "Hall C");
                      ("events_ids", JArr [JStr "ev-1"]);
                      ("rooms", JArr [Sample.room "R1" 50])]) in
  let out := Sample.create req Sample.location_schema Sample.two_halls in
  status_code (fst out) = 202%Z
  /\ accepted Sample.jsonschema_validate Sample.uuid4 Sample.location_schema
       req Sample.two_halls (fst out) (snd out).
Proof.
  intros req out. split; [ reflexivity | ].
  apply create_accepted_only_if with (py_str := Sample.py_str); reflexivity.
Defined.

(** When [create_location] answers 202, the stored document holds, beside
    the five keys the handler writes itself, exactly the body's keys that
    the schema declares under ["properties"], with the body's values;
    undeclared keys are dropped.  An ["id"] sent in the body is ignored: the
    stored one is generated. *)
Theorem create_additional_fields :
  forall (jsonschema_validate : json -> json -> validation)
         (uuid4 : nat -> string) (py_str : json -> string)
         req location_schema w resp w' b,
    create_location jsonschema_validate uuid4 py_str req location_schema w
    = (resp, w') ->
    status_code resp = 202%Z ->
    json_body req = Some (JObj b) ->
    exists doc,
      docs w' = (docs w ++ [doc])%list
      /\ additional_fields uuid4 location_schema b doc w'.
Proof.
  intros validate uuid4 py_str req schema w resp w' b0 Hrun Hstatus Hb0.
  destruct (create_location_outcome validate uuid4 py_str req schema w)
    as [[Hne _] | (b & name & events & rooms & items & rooms' & w2 & doc & Hb
                   & Hname & Hev & Hrooms & _ & _ & Hsel & Hvalid & _ & Hadd
                   & Hout)].
  - rewrite Hrun in Hne. contradiction.
  - rewrite Hrun in Hout. injection Hout as -> ->.
    assert (b0 = b) by congruence. subst b0.
    exists doc. split; [ reflexivity | ]. split.
    + cbn [uuid_count Nat.pred].
      apply (core_doc_kept _ _ _ _ _ _ _ _ _ _ Hadd). reflexivity.
    + intros k Hcore.
      destruct (add_schema_fields_spec schema _ _ doc Hadd k) as (_ & C2 & C3).
      rewrite core_doc_mem in C2, C3.
      assert (Hk : Dict.get k (Dict.set "rooms" rooms' b) = Dict.get k b).
      { apply dict_get_set_other. intros ->. discriminate. }
      rewrite Hk in C2, C3. split; [ exact (C2 Hcore) | exact (C3 Hcore) ].
Qed.

Lemma create_additional_fields_witness :
  let b := [("id", JStr "forged");
            ("location_name", JStr "Hall C");
            ("description", JStr "North wing");
            ("events_ids", JArr []);
            ("rooms", JArr []);
            ("owner", JStr "someone")] in
  let out := Sample.create (Sample.post (JObj b)) Sample.location_schema
               Sample.two_halls in
  status_code (fst out) = 202%Z
  /\ json_body (Sample.post (JObj b)) = Some (JObj b)
  /\ exists doc,
       docs (snd out) = (docs Sample.two_halls ++ [doc])%list
       /\ additional_fields Sample.uuid4 Sample.location_schema b doc (snd out).
Proof.
  intros b out. split; [ reflexivity | ]. split; [ reflexivity | ].
  apply create_additional_fields
    with (jsonschema_validate := Sample.jsonschema_validate)
         (py_str := Sample.py_str) (req := Sample.post (JObj b))
         (resp := fst out);
    reflexivity.
Defined.

(** *** The rooms *)

Lemma stored_room_set :
  forall uuid4 n d,
    stored_room uuid4 n (JObj d) (JObj (Dict.set "room_id" (JStr (uuid4 n)) d)).
Proof.
  intros uuid4 n d. exists d, (Dict.set "room_id" (JStr (uuid4 n)) d).
  split; [ reflexivity | ]. split; [ reflexivity | ].
  split; [ reflexivity | ]. split.
  - apply dict_get_set_same.
  - intros k Hk. apply dict_get_set_other. exact Hk.
Qed.

Lemma with_room_ids_length :
  forall uuid4 items n, length (with_room_ids uuid4 n items) = length items.
Proof.
  intros uuid4. induction items as [ | room items IH ]; intros n; simpl;
    [ reflexivity | ].
  destruct room; simpl; rewrite IH; reflexivity.
Qed.

Lemma with_room_ids_rooms :
  forall uuid4 items n,
    forallb Json.is_object items = true ->
    stored_rooms uuid4 n items (with_room_ids uuid4 n items).
Proof.
  intros uuid4 items n Hobj. split; [ apply with_room_ids_length | ].
  revert n Hobj. induction items as [ | room items IH ]; intros n Hobj i sent Hi.
  - destruct i; discriminate.
  - simpl in Hobj. apply andb_true_iff in Hobj. destruct Hobj as [Hroom Hitems].
    destruct room as [ | ? | ? | ? | ? | d ]; try discriminate.
    destruct i as [ | i ]; simpl in Hi |- *.
    + injection Hi as <-. eexists. split; [ reflexivity | ].
      rewrite Nat.add_0_r. apply stored_room_set.
    + destruct (IH (S n) Hitems i sent Hi) as (st & Hst & Hroom').
      exists st. split; [ exact Hst | ].
      rewrite Nat.add_succ_r. exact Hroom'.
Qed.

(** When [create_location] answers 202 for a body whose [rooms] is an
    array, every room was an object and the stored rooms are the rooms as
    sent, one for one and in order, the [i]-th with its ["room_id"] assigned
    the [i]-th identifier generated after the location's.  So the stored
    ["room_id"] is the generated one whatever the client sent under that
    key, and every other field of a room is stored as it came. *)
Theorem create_stores_rooms_as_sent :
  forall (jsonschema_validate : json -> json -> validation)
         (uuid4 : nat -> string) (py_str : json -> string)
         req location_schema w resp w' b rooms,
    create_location jsonschema_validate uuid4 py_str req location_schema w
    = (resp, w') ->
    status_code resp = 202%Z ->
    json_body req = Some (JObj b) ->
    Dict.get "rooms" b = Some (JArr rooms) ->
    exists doc stored,
      docs w' = (docs w ++ [doc])%list
      /\ Dict.get "rooms" doc = Some (JArr stored)
      /\ stored_rooms uuid4 (S (uuid_count w)) rooms stored.
Proof.
  intros validate uuid4 py_str req schema w resp w' b0 rs Hrun Hstatus Hb0 Hrs.
  destruct (create_location_outcome validate uuid4 py_str req schema w)
    as [[Hne _] | (b & name & events & rooms & items & rooms' & w2 & doc & Hb
                   & Hname & Hev & Hrooms & _ & _ & Hsel & Hvalid & Hset & Hadd
                   & Hout)].
  - rewrite Hrun in Hne. contradiction.
  - rewrite Hrun in Hout. injection Hout as -> ->.
    assert (b0 = b) by congruence. subst b0.
    assert (rooms = JArr rs) by congruence. subst rooms.
    unfold set_room_ids, bind in Hset.
    destruct (assign_room_ids uuid4 rs _) as [[stored | e] w3] eqn:Hassign;
      [ | discriminate ].
    injection Hset as <- <-.
    pose proof (assign_room_ids_inv _ _ _ _ _ Hassign) as Hobj.
    rewrite (assign_room_ids_objects uuid4 rs _ Hobj) in Hassign.
    injection Hassign as <- _.
    exists doc. eexists. split; [ reflexivity | ]. split.
    + apply (core_doc_kept _ _ _ _ _ _ _ _ _ _ Hadd). reflexivity.
    + cbn [uuid_count]. apply with_room_ids_rooms. exact Hobj.
Qed.

Lemma create_stores_rooms_as_sent_witness :
  let rooms := [JObj [("room_name", JStr "R1"); ("capacity", JNum 50);
                      ("room_id", JStr "mine"); ("floor", JNum 2)];
                Sample.room "R2" 12] in
  let b := [("location_name", JStr "Hall C");
            ("events_ids", JArr []);
            ("rooms", JArr rooms)] in
  let out := Sample.create (Sample.post (JObj b)) Sample.location_schema
               Sample.two_halls in
  status_code (fst out) = 202%Z
  /\ json_body (Sample.post (JObj b)) = Some (JObj b)
  /\ Dict.get "rooms" b = Some (JArr rooms)
  /\ exists doc stored,
       docs (snd out) = (docs Sample.two_halls ++ [doc])%list
       /\ Dict.get "rooms" doc = Some (JArr stored)
       /\ stored_rooms Sample.uuid4 (S (uuid_count Sample.two_halls)) rooms
            stored.
Proof.
  intros rooms b out. do 3 (split; [ reflexivity | ]).
  apply create_stores_rooms_as_sent
    with (jsonschema_validate := Sample.jsonschema_validate)
         (uuid4 := Sample.uuid4) (py_str := Sample.py_str)
         (req := Sample.post (JObj b)) (location_schema := Sample.location_schema)
         (resp := fst out) (b := b);
    reflexivity.
Defined.

(* ================================================================== *)
(** ** Create, then ... *)
(* ================================================================== *)

(** The answer to a complete request whose name is taken. *)
Lemma create_location_name_taken :
  forall (jsonschema_validate : json -> json -> validation)
         (uuid4 : nat -> string) (py_str : json -> string)
         req location_schema w b name rooms d rest,
    json_body req = Some (JObj b) ->
    Dict.get "location_name" b = Some name ->
    Dict.get "rooms" b = Some (JArr rooms) ->
    forallb room_complete rooms = true ->
    Store.select "location_name" name (docs w) = d :: rest ->
    create_location jsonschema_validate uuid4 py_str req location_schema w
    = (mkResponse 400
         (error_body ("Location with name '" ++ py_str name
                      ++ "' already exists.")), w).
Proof.
  intros validate uuid4 py_str req schema w b name rooms d rest
    Hb Hname Hrooms Hcomplete Hsel.
  enter_create Hb Hname Hrooms (eq_refl : Py.iter (JArr rooms) = Ok rooms)
    (room_lacks_field_complete rooms Hcomplete).
  rewrite Hsel. reflexivity.
Qed.

Lemma truthy_nonempty :
  forall s, s <> EmptyString -> Json.truthy (JStr s) = true.
Proof.
  intros s H. simpl. apply negb_true_iff. apply String.eqb_neq. exact H.
Qed.

(** After a 202, and provided the generated [location_id] is fresh (not
    empty, carried by no document stored before), a [get_location] for the
    identifier of the response answers 200 with the document that was just
    stored. *)
Theorem create_then_get :
  forall (jsonschema_validate : json -> json -> validation)
         (uuid4 : nat -> string) (py_str : json -> string)
         req location_schema w resp w' lookup,
    create_location jsonschema_validate uuid4 py_str req location_schema w
    = (resp, w') ->
    status_code resp = 202%Z ->
    uuid4 (uuid_count w) <> EmptyString ->
    Store.select "location_id" (JStr (uuid4 (uuid_count w))) (docs w) = [] ->
    get_reads lookup (JStr (uuid4 (uuid_count w))) ->
    exists doc,
      Py.getitem (body resp) "location_id" = Ok (JStr (uuid4 (uuid_count w)))
      /\ docs w' = (docs w ++ [doc])%list
      /\ get_location py_str lookup w'
         = (mkResponse 200 (JObj [("location", JObj doc)]), w').
Proof.
  intros validate uuid4 py_str req schema w resp w' lookup
    Hrun Hstatus Hne Hfresh Hreads.
  destruct (create_location_outcome validate uuid4 py_str req schema w)
    as [[Hno _] | (b & name & events & rooms & items & rooms' & w2 & doc & _
                   & _ & _ & _ & _ & _ & _ & _ & _ & Hadd & Hout)].
  - rewrite Hrun in Hno. contradiction.
  - rewrite Hrun in Hout. injection Hout as -> ->.
    exists doc. split; [ reflexivity | ]. split; [ reflexivity | ].
    rewrite (get_location_reads py_str lookup _ _ Hreads),
      (truthy_nonempty _ Hne).
    cbn [docs]. rewrite (select_snoc "location_id" _ (docs w) doc Hfresh).
    + reflexivity.
    + apply (core_doc_kept _ _ _ _ _ _ _ _ _ _ Hadd). reflexivity.
Qed.

Lemma create_then_get_witness :
  let req := Sample.post
               (JObj [("location_name", JStr "Hall C");
                      ("events_ids", JArr []);
                      ("rooms", JArr [Sample.room "R1" 50])]) in
  let out := Sample.create req Sample.location_schema Sample.two_halls in
  let lookup := Sample.get_with [("location_id", "id-0")] in
  status_code (fst out) = 202%Z
  /\ Sample.uuid4 (uuid_count Sample.two_halls) <> EmptyString
  /\ Store.select "location_id"
       (JStr (Sample.uuid4 (uuid_count Sample.two_halls)))
       (docs Sample.two_halls) = []
  /\ get_reads lookup (JStr (Sample.uuid4 (uuid_count Sample.two_halls)))
  /\ exists doc,
       Py.getitem (body (fst out)) "location_id"
       = Ok (JStr (Sample.uuid4 (uuid_count Sample.two_halls)))
       /\ docs (snd out) = (docs Sample.two_halls ++ [doc])%list
       /\ Sample.get lookup (snd out)
          = (mkResponse 200 (JObj [("location", JObj doc)]), snd out).
Proof.
  intros req out lookup.
  assert (Hne : Sample.uuid4 (uuid_count Sample.two_halls) <> EmptyString)
    by (vm_compute; discriminate).
  assert (Hr : get_reads lookup
                 (JStr (Sample.uuid4 (uuid_count Sample.two_halls))))
    by (left; split; reflexivity).
  split; [ reflexivity | ]. split; [ exact Hne | ].
  split; [ reflexivity | ]. split; [ exact Hr | ].
  apply create_then_get
    with (jsonschema_validate := Sample.jsonschema_validate)
         (req := req) (location_schema := Sample.location_schema);
    first [ reflexivity | assumption ].
Defined.

(** After a 202 with a fresh [location_id], a [delete_location] for the
    identifier of the response answers 200 and the stored documents are
    again exactly those from before the creation. *)
Theorem create_then_delete :
  forall (jsonschema_validate : json -> json -> validation)
         (uuid4 : nat -> string) (py_str : json -> string)
         req location_schema w resp w' removal,
    create_location jsonschema_validate uuid4 py_str req location_schema w
    = (resp, w') ->
    status_code resp = 202%Z ->
    uuid4 (uuid_count w) <> EmptyString ->
    Store.select "location_id" (JStr (uuid4 (uuid_count w))) (docs w) = [] ->
    delete_reads removal (JStr (uuid4 (uuid_count w))) ->
    status_code (fst (delete_location py_str removal w')) = 200%Z
    /\ docs (snd (delete_location py_str removal w')) = docs w.
Proof.
  intros validate uuid4 py_str req schema w resp w' removal
    Hrun Hstatus Hne Hfresh Hreads.
  destruct (create_location_outcome validate uuid4 py_str req schema w)
    as [[Hno _] | (b & name & events & rooms & items & rooms' & w2 & doc & _
                   & _ & _ & _ & _ & _ & _ & _ & _ & Hadd & Hout)].
  - rewrite Hrun in Hno. contradiction.
  - rewrite Hrun in Hout. injection Hout as -> ->.
    assert (Hlid : Dict.get "location_id" doc
                   = Some (JStr (uuid4 (uuid_count w))))
      by (apply (core_doc_kept _ _ _ _ _ _ _ _ _ _ Hadd); reflexivity).
    assert (Hid : Dict.get "id" doc = Some (JStr (uuid4 (uuid_count w2))))
      by (apply (core_doc_kept _ _ _ _ _ _ _ _ _ _ Hadd); reflexivity).
    rewrite (delete_location_found py_str removal _
               (mkWorld (docs w ++ [doc]) (calls w ++ [CreateItem doc])
                  (S (uuid_count w2)))
               doc [] _ Hreads (truthy_nonempty _ Hne)
               (select_snoc "location_id" _ (docs w) doc Hfresh Hlid) Hid).
    cbn [fst snd status_code docs]. split; [ reflexivity | ].
    rewrite (remove_first_split _ (docs w) [] doc).
    + apply app_nil_r.
    + apply pre_free_of_select. exact Hfresh.
    + apply is_item_self; assumption.
Qed.

Lemma create_then_delete_witness :
  let req := Sample.post
               (JObj [("location_name", JStr "Hall C");
                      ("events_ids", JArr []);
                      ("rooms", JArr [Sample.room "R1" 50])]) in
  let out := Sample.create req Sample.location_schema Sample.two_halls in
  let removal := Sample.post (JObj [("location_id", JStr "id-0")]) in
  status_code (fst out) = 202%Z
  /\ Sample.uuid4 (uuid_count Sample.two_halls) <> EmptyString
  /\ Store.select "location_id"
       (JStr (Sample.uuid4 (uuid_count Sample.two_halls)))
       (docs Sample.two_halls) = []
  /\ delete_reads removal (JStr (Sample.uuid4 (uuid_count Sample.two_halls)))
  /\ status_code (fst (Sample.delete removal (snd out))) = 200%Z
  /\ docs (snd (Sample.delete removal (snd out))) = docs Sample.two_halls.
Proof.
  intros req out removal.
  assert (Hne : Sample.uuid4 (uuid_count Sample.two_halls) <> EmptyString)
    by (vm_compute; discriminate).
  assert (Hr : delete_reads removal
                 (JStr (Sample.uuid4 (uuid_count Sample.two_halls)))).
  { left. split; [ reflexivity | ]. eexists. split; reflexivity. }
  split; [ reflexivity | ]. split; [ exact Hne | ].
  split; [ reflexivity | ]. split; [ exact Hr | ].
  apply create_then_delete
    with (jsonschema_validate := Sample.jsonschema_validate)
         (uuid4 := Sample.uuid4) (req := req)
         (location_schema := Sample.location_schema) (resp := fst out);
    first [ reflexivity | assumption ].
Defined.

(** Names stay taken: after a 202 for a body named [name], any further
    Create request with that [location_name] and complete rooms is answered
    400 "Location with name ... already exists." and stores nothing, whatever
    its other fields. *)
Theorem create_twice_same_name :
  forall (jsonschema_validate : json -> json -> validation)
         (uuid4 : nat -> string) (py_str : json -> string)
         req location_schema w resp w' b name again b2 rooms2,
    create_location jsonschema_validate uuid4 py_str req location_schema w
    = (resp, w') ->
    status_code resp = 202%Z ->
    json_body req = Some (JObj b) ->
    Dict.get "location_name" b = Some name ->
    json_body again = Some (JObj b2) ->
    Dict.get "location_name" b2 = Some name ->
    Dict.get "rooms" b2 = Some (JArr rooms2) ->
    forallb room_complete rooms2 = true ->
    create_location jsonschema_validate uuid4 py_str again location_schema w'
    = (mkResponse 400
         (error_body ("Location with name '" ++ py_str name
                      ++ "' already exists.")), w').
Proof.
  intros validate uuid4 py_str req schema w resp w' b0 name0 again b2 rooms2
    Hrun Hstatus Hb0 Hname0 Hb2 Hname2 Hrooms2 Hcomplete.
  destruct (create_location_outcome validate uuid4 py_str req schema w)
    as [[Hno _] | (b & name & events & rooms & items & rooms' & w2 & doc & Hb
                   & Hname & _ & _ & _ & _ & Hsel & _ & _ & Hadd & Hout)].
  - rewrite Hrun in Hno. contradiction.
  - rewrite Hrun in Hout. injection Hout as -> ->.
    assert (b0 = b) by congruence. subst b0.
    assert (name0 = name) by congruence. subst name0.
    apply create_location_name_taken
      with (b := b2) (rooms := rooms2) (d := doc) (rest := []);
      try assumption.
    cbn [docs]. apply select_snoc; [ exact Hsel | ].
    apply (core_doc_kept _ _ _ _ _ _ _ _ _ _ Hadd). reflexivity.
Qed.

Lemma create_twice_same_name_witness :
  let b := [("location_name", JStr "Hall C");
            ("events_ids", JArr []);
            ("rooms", JArr [Sample.room "R1" 50])] in
  let b2 := [("location_name", JStr "Hall C");
             ("events_ids", JArr [JStr "ev-3"]);
             ("rooms", JArr [])] in
  let out := Sample.create (Sample.post (JObj b)) Sample.location_schema
               Sample.two_halls in
  status_code (fst out) = 202%Z
  /\ Dict.get "location_name" b = Some (JStr "Hall C")
  /\ Dict.get "location_name" b2 = Some (JStr "Hall C")
  /\ Dict.get "rooms" b2 = Some (JArr [])
  /\ Sample.create (Sample.post (JObj b2)) Sample.location_schema (snd out)
     = (mkResponse 400
          (error_body "Location with name 'Hall C' already exists."),
        snd out).
Proof.
  intros b b2 out. do 4 (split; [ reflexivity | ]).
  apply create_twice_same_name
    with (jsonschema_validate := Sample.jsonschema_validate)
         (uuid4 := Sample.uuid4) (py_str := Sample.py_str)
         (req := Sample.post (JObj b)) (w := Sample.two_halls)
         (resp := fst out) (b := b) (name := JStr "Hall C")
         (b2 := b2) (rooms2 := []);
    reflexivity.
Defined.

(* ================================================================== *)
(** ** Delete: outcomes *)
(* ================================================================== *)

Lemma py_get_inv :
  forall c k v, Py.get c k = Ok v -> exists b, c = JObj b.
Proof.
  intros c k v. unfold Py.get.
  destruct c as [ | ? | ? | ? | ? | b ]; try discriminate. eauto.
Qed.

(** Either [delete_location] raises while reading the request, or it goes
    on with the identifier that [delete_reads] names. *)
Lemma delete_location_reading :
  forall (py_str : json -> string) req w,
    delete_location py_str req w
    = (mkResponse 500 (error_body "Internal Server Error"), w)
    \/ exists lid, delete_reads req lid.
Proof.
  intros py_str req w.
  destruct (String.eqb (method req) "POST") eqn:Hm.
  - apply String.eqb_eq in Hm.
    destruct (json_body req) as [decoded | ] eqn:Hb.
    + destruct (Py.get decoded "location_id") as [lid | e] eqn:Hget.
      * destruct (py_get_inv _ _ _ Hget) as (b & ->).
        right. exists lid. left. split; [ exact Hm | ]. exists b. split; assumption.
      * left. unfold delete_location, try_except, delete_location_try, bind,
          get_json, lift.
        rewrite Hm, Hb. cbn. rewrite Hget. reflexivity.
    + left. unfold delete_location, try_except, delete_location_try, bind,
        get_json, lift.
      rewrite Hm, Hb. reflexivity.
  - apply String.eqb_neq in Hm.
    right. exists (params_get "location_id" (params req)).
    right. split; [ exact Hm | reflexivity ].
Qed.

Lemma delete_location_no_id :
  forall (py_str : json -> string) req lid w d rest,
    delete_reads req lid -> Json.truthy lid = true ->
    Store.select "location_id" lid (docs w) = d :: rest ->
    Dict.get "id" d = None ->
    delete_location py_str req w
    = (mkResponse 500 (error_body "Internal Server Error"), w).
Proof.
  intros py_str req lid w d rest Hr Ht Hsel Hid.
  read_delete_id Hr; rewrite Ht; cbn; rewrite Hsel; cbn;
    unfold Py.getitem; rewrite Hid; reflexivity.
Qed.

(** Either [delete_location] answers something else than 200 and the
    documents are untouched, or it has removed the first document that
    carries the (truthy) identifier it read. *)
Lemma delete_location_outcome :
  forall (py_str : json -> string) req w,
    let out := delete_location py_str req w in
    (status_code (fst out) <> 200%Z /\ docs (snd out) = docs w)
    \/ exists lid d pre post,
         delete_reads req lid
         /\ Json.truthy lid = true
         /\ docs w = (pre ++ d :: post)%list
         /\ Store.select "location_id" lid pre = []
         /\ Dict.get "location_id" d = Some lid
         /\ status_code (fst out) = 200%Z
         /\ docs (snd out) = (pre ++ post)%list.
Proof.
  intros py_str req w. cbv zeta.
  destruct (delete_location_reading py_str req w) as [H500 | [lid Hr]].
  { rewrite H500. left. split; [ discriminate | reflexivity ]. }
  destruct (Json.truthy lid) eqn:Ht.
  2:{ rewrite (delete_location_missing py_str req lid w Hr Ht).
      left. split; [ discriminate | reflexivity ]. }
  destruct (Store.select "location_id" lid (docs w)) as [ | d rest ] eqn:Hsel.
  { rewrite (delete_location_not_found py_str req lid w Hr Ht Hsel).
    left. split; [ discriminate | reflexivity ]. }
  destruct (Dict.get "id" d) as [i | ] eqn:Hid.
  2:{ rewrite (delete_location_no_id py_str req lid w d rest Hr Ht Hsel Hid).
      left. split; [ discriminate | reflexivity ]. }
  destruct (select_split _ _ _ _ _ Hsel) as (pre & post & Hw & Hpre & _ & Hlid).
  rewrite (delete_location_found py_str req lid w d rest i Hr Ht Hsel Hid).
  right. exists lid, d, pre, post.
  repeat (split; [ first [ assumption | reflexivity ] | ]).
  cbn [snd docs]. rewrite Hw.
  apply (select_after_remove lid i pre d post Hpre Hid Hlid).
Qed.

(** Whenever [delete_location] answers 200, exactly one stored document
    is gone: the first one that carried the requested [location_id].  Every
    other document is still there, in the same order, including any later
    one with the same [location_id]. *)
Theorem delete_removes_one :
  forall (py_str : json -> string) req w resp w',
    delete_location py_str req w = (resp, w') ->
    status_code resp = 200%Z ->
    exists lid d pre post,
      delete_reads req lid
      /\ Json.truthy lid = true
      /\ docs w = (pre ++ d :: post)%list
      /\ Store.select "location_id" lid pre = []
      /\ Dict.get "location_id" d = Some lid
      /\ docs w' = (pre ++ post)%list.
Proof.
  intros py_str req w resp w' Hrun Hstatus.
  destruct (delete_location_outcome py_str req w)
    as [[Hne _] | (lid & d & pre & post & Hr & Ht & Hw & Hpre & Hlid & _ & Hd)];
    rewrite Hrun in *.
  - contradiction.
  - exists lid, d, pre, post. repeat (split; [ assumption | ]). exact Hd.
Qed.

Lemma delete_removes_one_witness :
  let req := Sample.post (JObj [("location_id", JStr "loc-1")]) in
  let out := Sample.delete req Sample.two_halls in
  status_code (fst out) = 200%Z
  /\ exists lid d pre post,
       delete_reads req lid
       /\ Json.truthy lid = true
       /\ docs Sample.two_halls = (pre ++ d :: post)%list
       /\ Store.select "location_id" lid pre = []
       /\ Dict.get "location_id" d = Some lid
       /\ docs (snd out) = (pre ++ post)%list.
Proof.
  intros req out. split; [ reflexivity | ].
  apply delete_removes_one with (py_str := Sample.py_str) (resp := fst out);
    reflexivity.
Defined.

(* ================================================================== *)
(** ** What the handlers keep true of the store *)
(* ================================================================== *)

Lemma forallb_split_remove :
  forall (p : dict -> bool) pre d post,
    forallb p (pre ++ d :: post) = true -> forallb p (pre ++ post) = true.
Proof.
  intros p pre d post H. rewrite forallb_app in *. simpl in H.
  apply andb_true_iff in H. destruct H as [Hpre H].
  apply andb_true_iff in H. destruct H as [_ Hpost].
  rewrite Hpre, Hpost. reflexivity.
Qed.

Lemma forallb_split_replace :
  forall (p : dict -> bool) pre d new post,
    forallb p (pre ++ d :: post) = true -> p new = true ->
    forallb p (pre ++ new :: post) = true.
Proof.
  intros p pre d new post H Hnew. rewrite forallb_app in *. simpl in *.
  apply andb_true_iff in H. destruct H as [Hpre H].
  apply andb_true_iff in H. destruct H as [_ Hpost].
  rewrite Hpre, Hnew, Hpost. reflexivity.
Qed.

Lemma get_location_docs :
  forall (py_str : json -> string) req w,
    docs (snd (get_location py_str req w)) = docs w.
Proof.
  intros py_str req w. unfold get_location, try_except.
  assert (Hq : quiet (get_location_try py_str req))
    by (unfold get_location_try; quiet_steps).
  destruct (Hq w) as [Hd _].
  destruct (get_location_try py_str req w) as [[r | e] w1]; exact Hd.
Qed.

(** If every stored document has an internal ["id"], so it is after any
    call of any of the four handlers, whatever the request and the
    answer. *)
Theorem handlers_keep_ids :
  forall (jsonschema_validate : json -> json -> validation)
         (uuid4 : nat -> string) (py_str : json -> string)
         req location_schema w,
    forallb (Dict.mem "id") (docs w) = true ->
    forallb (Dict.mem "id")
      (docs (snd (create_location jsonschema_validate uuid4 py_str req
                    location_schema w))) = true
    /\ forallb (Dict.mem "id") (docs (snd (delete_location py_str req w)))
       = true
    /\ forallb (Dict.mem "id") (docs (snd (get_location py_str req w))) = true
    /\ forallb (Dict.mem "id")
         (docs (snd (edit_location jsonschema_validate py_str req
                       location_schema w))) = true.
Proof.
  intros validate uuid4 py_str req schema w Hids.
  split; [ | split; [ | split ] ].
  - destruct (create_location_outcome validate uuid4 py_str req schema w)
      as [[_ Hd] | (b & name & events & rooms & items & rooms' & w2 & doc & _
                    & _ & _ & _ & _ & _ & _ & _ & _ & Hadd & Hout)].
    + rewrite Hd. exact Hids.
    + rewrite Hout. cbn [snd docs]. rewrite forallb_app, Hids. simpl.
      rewrite (dict_mem_true "id" doc (JStr (uuid4 (uuid_count w2))));
        [ reflexivity | ].
      apply (core_doc_kept _ _ _ _ _ _ _ _ _ _ Hadd). reflexivity.
  - destruct (delete_location_outcome py_str req w)
      as [[_ Hd] | (lid & d & pre & post & _ & _ & Hw & _ & _ & _ & Hd)];
      rewrite Hd; [ exact Hids | ].
    rewrite Hw in Hids. exact (forallb_split_remove _ _ _ _ Hids).
  - rewrite get_location_docs. exact Hids.
  - destruct (edit_location_outcome validate py_str req schema w)
      as [[_ Hd] | (b & lid & old & pre & post & i & _ & _ & _ & Hw & _ & _
                    & Hid & _ & Hout)].
    + rewrite Hd. exact Hids.
    + rewrite Hout. cbn [snd docs]. rewrite Hw in Hids.
      apply (forallb_split_replace _ _ _ _ _ Hids).
      apply dict_mem_true with (v := i).
      rewrite merge_updates_keeps_id. exact Hid.
Qed.

Lemma handlers_keep_ids_witness :
  let req := Sample.post
               (JObj [("location_id", JStr "loc-1");
                      ("location_name", JStr "Hall C");
                      ("events_ids", JArr []);
                      ("rooms", JArr [])]) in
  forallb (Dict.mem "id") (docs Sample.two_halls) = true
  /\ forallb (Dict.mem "id")
       (docs (snd (Sample.create req Sample.location_schema Sample.two_halls)))
     = true
  /\ forallb (Dict.mem "id") (docs (snd (Sample.delete req Sample.two_halls)))
     = true
  /\ forallb (Dict.mem "id") (docs (snd (Sample.get req Sample.two_halls)))
     = true
  /\ forallb (Dict.mem "id")
       (docs (snd (Sample.edit req Sample.location_schema Sample.two_halls)))
     = true.
Proof.
  intros req. split; [ reflexivity | ].
  exact (handlers_keep_ids Sample.jsonschema_validate Sample.uuid4
           Sample.py_str req Sample.location_schema Sample.two_halls eq_refl).
Defined.

(** *** Unique names *)

Lemma names_app : forall a b, names (a ++ b) = (names a ++ names b)%list.
Proof. intros a b. unfold names. apply flat_map_app. Qed.

Lemma not_in_names :
  forall v ds,
    Store.select "location_name" v ds = [] -> ~ In v (names ds).
Proof.
  intros v ds Hsel Hin. unfold names in Hin.
  apply in_flat_map in Hin. destruct Hin as (d & Hd & Hv).
  destruct (Dict.get "location_name" d) as [x | ] eqn:E; [ | contradiction ].
  destruct Hv as [-> | []].
  apply field_is_get in E.
  rewrite (select_nil_none _ _ _ _ Hsel Hd) in E. discriminate.
Qed.

Lemma NoDup_snoc :
  forall (l : list json) x, NoDup l -> ~ In x l -> NoDup (l ++ [x]).
Proof.
  induction l as [ | y l IH ]; intros x Hl Hx; simpl.
  - constructor; [ intros [] | constructor ].
  - inversion Hl as [ | ? ? Hy Hl' ]; subst.
    constructor.
    + intros Hin. apply in_app_or in Hin. destruct Hin as [Hin | [-> | []]].
      * contradiction.
      * apply Hx. left. reflexivity.
    + apply IH; [ exact Hl' | ]. intros Hin. apply Hx. right. exact Hin.
Qed.

Lemma names_remove :
  forall pre d post,
    NoDup (names (pre ++ d :: post)) -> NoDup (names (pre ++ post)).
Proof.
  intros pre d post. rewrite !names_app.
  change (d :: post) with ([d] ++ post)%list. rewrite names_app.
  unfold names at 2. simpl.
  destruct (Dict.get "location_name" d) as [v | ]; simpl.
  - apply NoDup_remove_1.
  - intros H. exact H.
Qed.

(** Create and Delete keep location names unique: if no two stored
    documents carry the same [location_name] before a call of
    [create_location] or [delete_location], none do after it, whatever the
    request and the answer. *)
Theorem names_stay_unique :
  forall (jsonschema_validate : json -> json -> validation)
         (uuid4 : nat -> string) (py_str : json -> string)
         req location_schema w,
    NoDup (names (docs w)) ->
    NoDup (names (docs (snd (create_location jsonschema_validate uuid4 py_str
                               req location_schema w))))
    /\ NoDup (names (docs (snd (delete_location py_str req w)))).
Proof.
  intros validate uuid4 py_str req schema w Hunique. split.
  - destruct (create_location_outcome validate uuid4 py_str req schema w)
      as [[_ Hd] | (b & name & events & rooms & items & rooms' & w2 & doc & _
                    & _ & _ & _ & _ & _ & Hsel & _ & _ & Hadd & Hout)].
    + rewrite Hd. exact Hunique.
    + rewrite Hout. cbn [snd docs]. rewrite names_app.
      unfold names at 2. simpl.
      rewrite (core_doc_kept _ _ _ _ _ _ _ _ "location_name" name Hadd eq_refl).
      simpl. apply NoDup_snoc; [ exact Hunique | ].
      apply not_in_names. exact Hsel.
  - destruct (delete_location_outcome py_str req w)
      as [[_ Hd] | (lid & d & pre & post & _ & _ & Hw & _ & _ & _ & Hd)];
      rewrite Hd; [ exact Hunique | ].
    rewrite Hw in Hunique. exact (names_remove _ _ _ Hunique).
Qed.

Lemma names_stay_unique_witness :
  let req := Sample.post
               (JObj [("location_id", JStr "loc-1");
                      ("location_name", JStr "Hall C");
                      ("events_ids", JArr []);
                      ("rooms", JArr [])]) in
  NoDup (names (docs Sample.two_halls))
  /\ NoDup (names (docs (snd (Sample.create req Sample.location_schema
                                Sample.two_halls))))
  /\ NoDup (names (docs (snd (Sample.delete req Sample.two_halls)))).
Proof.
  intros req.
  assert (H : NoDup (names (docs Sample.two_halls))).
  { repeat constructor; simpl; intuition discriminate. }
  split; [ exact H | ].
  exact (names_stay_unique Sample.jsonschema_validate Sample.uuid4
           Sample.py_str req Sample.location_schema Sample.two_halls H).
Defined.

(* ================================================================== *)
(** ** Delete, then get *)
(* ================================================================== *)

Lemma delete_reads_functional :
  forall req lid lid', delete_reads req lid -> delete_reads req lid' -> lid = lid'.
Proof.
  intros req lid lid' [[Hm (b & Hb & Hg)] | [Hm Hp]]
    [[Hm' (b' & Hb' & Hg')] | [Hm' Hp']]; try contradiction.
  - assert (b' = b) by congruence. subst b'. congruence.
  - unfold in_params in *. congruence.
Qed.

(** After a 200 from [delete_location] for an identifier that exactly one
    stored document carried, a [get_location] for that identifier answers
    404. *)
Theorem delete_then_get :
  forall (py_str : json -> string) req w resp w' lid d lookup,
    delete_location py_str req w = (resp, w') ->
    status_code resp = 200%Z ->
    delete_reads req lid ->
    Store.select "location_id" lid (docs w) = [d] ->
    get_reads lookup lid ->
    get_location py_str lookup w'
    = (mkResponse 404
         (error_body ("Location '" ++ py_str lid ++ "' not found.")), w').
Proof.
  intros py_str req w resp w' lid d0 lookup Hrun Hstatus Hr Hone Hlookup.
  destruct (delete_location_outcome py_str req w)
    as [[Hne _] | (lid' & d & pre & post & Hr' & Ht & Hw & Hpre & Hlid & _ & Hd)];
    rewrite Hrun in *.
  - contradiction.
  - assert (lid' = lid) by (eapply delete_reads_functional; eassumption).
    subst lid'. cbn [snd] in Hd.
    rewrite (get_location_reads py_str lookup lid w' Hlookup), Ht, Hd.
    assert (Hgone : Store.select "location_id" lid (pre ++ post) = []).
    { rewrite Hw in Hone. unfold Store.select in *.
      rewrite filter_app in *. rewrite Hpre in *. simpl in Hone.
      rewrite (proj2 (field_is_get _ _ _) Hlid) in Hone.
      injection Hone as _ Hpost. rewrite Hpost. reflexivity. }
    rewrite Hgone. reflexivity.
Qed.

Lemma delete_then_get_witness :
  let req := Sample.post (JObj [("location_id", JStr "loc-2")]) in
  let out := Sample.delete req Sample.two_halls in
  let lookup := Sample.get_with [("location_id", "loc-2")] in
  status_code (fst out) = 200%Z
  /\ delete_reads req (JStr "loc-2")
  /\ Store.select "location_id" (JStr "loc-2") (docs Sample.two_halls)
     = [Sample.hall_b]
  /\ get_reads lookup (JStr "loc-2")
  /\ Sample.get lookup (snd out)
     = (mkResponse 404 (error_body "Location 'loc-2' not found."), snd out).
Proof.
  intros req out lookup.
  assert (Hr : delete_reads req (JStr "loc-2")).
  { left. split; [ reflexivity | ]. eexists. split; reflexivity. }
  assert (Hl : get_reads lookup (JStr "loc-2")) by (left; split; reflexivity).
  split; [ reflexivity | ]. split; [ exact Hr | ].
  split; [ reflexivity | ]. split; [ exact Hl | ].
  exact (delete_then_get Sample.py_str req Sample.two_halls (fst out)
           (snd out) (JStr "loc-2") Sample.hall_b lookup
           eq_refl eq_refl Hr eq_refl Hl).
Defined.

(* ================================================================== *)
(** ** The shape of an answer *)
(* ================================================================== *)

Lemma responds_ret :
  forall (P : response -> Prop) r, P r -> responds P (ret r).
Proof. intros P r H w. exact H. Qed.

Lemma responds_raise : forall (P : response -> Prop) e, responds P (raise e).
Proof. intros P e w. exact I. Qed.

Lemma responds_bind :
  forall (P : response -> Prop) A (m : M A) (k : A -> M response),
    (forall a, responds P (k a)) -> responds P (bind m k).
Proof.
  intros P A m k Hk w. unfold bind.
  destruct (m w) as [[a | e] w1]; [ apply Hk | exact I ].
Qed.

Lemma responds_try :
  forall (P : response -> Prop) (m : M response) fallback w,
    responds P m -> P fallback -> P (fst (try_except m fallback w)).
Proof.
  intros P m fallback w Hm Hfb. unfold try_except.
  pose proof (Hm w) as H.
  destruct (m w) as [[r | e] w1]; [ exact H | exact Hfb ].
Qed.

Lemma shaped_error :
  forall code msg,
    In code [400; 404; 500]%Z -> shaped (mkResponse code (error_body msg)).
Proof.
  intros code msg H. right. split; [ exact H | ]. exists msg. reflexivity.
Qed.

Ltac shaped_steps :=
  repeat match goal with
    | |- responds _ (bind _ _) => apply responds_bind; intro
    | |- responds _ (ret (mkResponse _ (error_body _))) =>
        apply responds_ret, shaped_error; simpl; tauto
    | |- responds _ (ret _) =>
        apply responds_ret; left; split; [ simpl; tauto | reflexivity ]
    | |- responds _ (raise _) => apply responds_raise
    | |- responds _ (if ?c then _ else _) => destruct c
    | |- responds _ (match ?x with _ => _ end) => destruct x
    end.

(** Every answer of every handler has one of two shapes: status 200 or
    202 with a body that has no ["error"] key, or status 400, 404 or 500
    with a body that is exactly one ["error"] string.  A client can tell
    failure from success by the key as well as by the code. *)
Theorem handlers_answer_shape :
  forall (jsonschema_validate : json -> json -> validation)
         (uuid4 : nat -> string) (py_str : json -> string)
         req location_schema w,
    shaped (fst (create_location jsonschema_validate uuid4 py_str req
                   location_schema w))
    /\ shaped (fst (delete_location py_str req w))
    /\ shaped (fst (get_location py_str req w))
    /\ shaped (fst (edit_location jsonschema_validate py_str req
                      location_schema w)).
Proof.
  intros validate uuid4 py_str req schema w.
  unfold create_location, delete_location, get_location, edit_location.
  split; [ | split; [ | split ] ];
    (apply (responds_try shaped); [ | apply shaped_error; simpl; tauto ]).
  - unfold create_location_try. shaped_steps.
  - unfold delete_location_try. shaped_steps.
  - unfold get_location_try. shaped_steps.
  - unfold edit_location_try. shaped_steps.
Qed.
